(** * pdf_to_doc_converter: the conversion pipeline and the preview extractor

    A shallow embedding of [src/pdf_to_doc_converter.py].

    - Python [str] values are lists of Unicode code points, [bytes] values
      are lists of bytes, Python [int] is [Z].
    - Exceptions are values; a computation that may raise returns a
      [result].
    - The file system is a finite map from paths to contents; the two
      third-party libraries (pdf2docx, python-docx) and the temporary-name
      generator are the fields of a class, so every statement below holds
      for any behaviour of theirs.
    - The Streamlit script [main] is a computation over the machine and
      the list of widgets drawn so far; [os.path.splitext] is the
      standard library's [_splitext], for either flavour of [os.path]. *)

From Stdlib Require Import ZArith NArith Ascii String List Lia.
From stdpp Require Import base gmap strings list.

Local Open Scope Z_scope.

(** ** Python strings *)

Definition str := list N.

(** A literal of the source, read code point by code point (ASCII only). *)
Definition lit (s : string) : str :=
  List.map N_of_ascii (list_ascii_of_string s).

(** The code point of the line feed, the separator of ["\n".join]. *)
Definition LF : N := 10%N.

(** [str.isspace] on one code point: the white space table of CPython. *)
Definition isspace (c : N) : bool :=
  ((9 <=? c) && (c <=? 13) || (28 <=? c) && (c <=? 32)
   || (c =? 133) || (c =? 160) || (c =? 5760)
   || (8192 <=? c) && (c <=? 8202)
   || (c =? 8232) || (c =? 8233) || (c =? 8239) || (c =? 8287)
   || (c =? 12288))%N.

Fixpoint lstrip (s : str) : str :=
  match s with
  | [] => []
  | c :: s' => if isspace c then lstrip s' else s
  end.

Definition rstrip (s : str) : str := rev (lstrip (rev s)).

(** [s.strip()] with no argument. *)
Definition strip (s : str) : str := rstrip (lstrip s).

(** Truth value of a string: [if t:]. *)
Definition truthy (s : str) : bool :=
  match s with [] => false | _ => true end.

(** [sep.join(l)] *)
Fixpoint join (sep : str) (l : list str) : str :=
  match l with
  | [] => []
  | [x] => x
  | x :: l' => x ++ sep ++ join sep l'
  end.

(** [s.split("\n")]: the lines of [s], the line in progress in [cur]. *)
Fixpoint split_lines_aux (cur : str) (s : str) : list str :=
  match s with
  | [] => [cur]
  | c :: s' =>
      if (c =? LF)%N then cur :: split_lines_aux [] s'
      else split_lines_aux (cur ++ [c]) s'
  end.

Definition split_lines (s : str) : list str := split_lines_aux [] s.

(** ** Exceptions and results *)

(** An exception object, as far as the handlers of the source look at
    it: its class name and the two [isinstance] tests they make. *)
Record exc := mkExc {
  exc_class : string;
  is_OSError : bool;
  is_ValueError : bool
}.

Inductive result (A : Type) : Type :=
| Ok (a : A)
| Raise (e : exc).
Arguments Ok {A} a.
Arguments Raise {A} e.

Definition FileNotFoundError : exc := mkExc "FileNotFoundError" true false.
Definition PermissionError : exc := mkExc "PermissionError" true false.

(** ** Documents as the preview sees them *)

Definition bytes := list Byte.byte.

(** A paragraph of python-docx; [p.text] may be [None] for the source,
    which reads it as [(p.text or "")]. *)
Record Paragraph := mkParagraph { text : option str }.

(** [(p.text or "")] *)
Definition text_or_empty (p : Paragraph) : str :=
  match text p with
  | Some s => if truthy s then s else lit ""
  | None => lit ""
  end.

(** The body of the [for] loop of [docx_text_preview], [out] being the
    list built so far; the [break] is the branch that returns. *)
Fixpoint preview_loop (ps : list Paragraph) (max_paragraphs : Z)
    (out : list str) : list str :=
  match ps with
  | [] => out
  | p :: rest =>
      let t := strip (text_or_empty p) in
      let out' := if truthy t then out ++ [t] else out in
      if Z.of_nat (length out') >=? max_paragraphs then out'
      else preview_loop rest max_paragraphs out'
  end.

(** The preview of a parsed document. *)
Definition preview_of (ps : list Paragraph) (max_paragraphs : Z) : str :=
  join [LF] (preview_loop ps max_paragraphs []).

(** ** The file system and the world outside the program *)

(** The part of the machine the pipeline touches: the files, by path, and
    the paths whose removal the operating system refuses (a file held open
    by another handle, a read-only directory). *)
Record World := mkWorld {
  files : gmap string bytes;
  locked : gset string
}.

(** The collaborators the source imports. Each call may read and change
    the world and may raise; nothing is assumed of them here.
    - [Converter], [cv_convert], [cv_close]: [pdf2docx.Converter(path)],
      [cv.convert(out, start=, end=, layout=)] and [cv.close()];
    - [Document], [doc_save]: [docx.Document(path)], which only reads, and
      [doc.save(path)];
    - [Document_of_bytes], [paragraphs]: [docx.Document(BytesIO(b))] and
      [doc.paragraphs];
    - [tmp_stem]: the directory and random stem [tempfile] picks next. *)
Class Libraries := {
  Cv : Type;
  Doc : Type;
  Converter : string -> World -> result Cv * World;
  cv_convert : Cv -> string -> Z -> option Z -> bool -> World -> result unit * World;
  cv_close : Cv -> World -> result unit * World;
  Document : string -> World -> result Doc;
  doc_save : Doc -> string -> World -> result unit * World;
  Document_of_bytes : bytes -> result Doc;
  paragraphs : Doc -> list Paragraph;
  tmp_stem : World -> string
}.

(** What the program asks of the outside, in the order it asks. *)
Inductive Event :=
| EvTempWrite (p : string) (data : bytes)
| EvMktemp (p : string)
| EvConverter (p : string)
| EvConvert (out : string) (start : Z) (end_ : option Z) (layout : bool)
| EvClose
| EvDocument (p : string)
| EvSave (p : string)
| EvRead (p : string)
| EvExists (p : string)
| EvUnlink (p : string).

Record State := mkState {
  world : World;
  trace : list Event
}.

(** ** Computations: state passing with exceptions *)

Definition M (A : Type) : Type := State -> result A * State.

Definition ret {A} (a : A) : M A := fun s => (Ok a, s).

Definition raise {A} (e : exc) : M A := fun s => (Raise e, s).

Definition bind {A B} (c : M A) (k : A -> M B) : M B :=
  fun s =>
    match c s with
    | (Ok a, s') => k a s'
    | (Raise e, s') => (Raise e, s')
    end.

Notation "x <- c ;; k" := (bind c (fun x => k))
  (at level 90, c at level 89, right associativity).
Notation "c ;;; k" := (bind c (fun _ => k))
  (at level 90, right associativity).

(** Record one request in the trace. *)
Definition emit (ev : Event) : M unit :=
  fun s => (Ok tt, mkState (world s) (trace s ++ [ev])).

(** A call into a library that may change the world. *)
Definition call {A} (f : World -> result A * World) : M A :=
  fun s => let (r, w) := f (world s) in (r, mkState w (trace s)).

(** A call into a library that only reads. *)
Definition query {A} (f : World -> result A) : M A :=
  fun s => (f (world s), s).

(** [try: body  except <classes>: handler], [catches] deciding the
    [isinstance] test of the [except] clause. *)
Definition try_except {A} (body : M A) (catches : exc -> bool)
    (handler : M A) : M A :=
  fun s =>
    match body s with
    | (Ok a, s') => (Ok a, s')
    | (Raise e, s') => if catches e then handler s' else (Raise e, s')
    end.

(** [try: body  finally: fin]: [fin] runs on every exit of [body]; the
    outcome is that of [body] unless [fin] itself raises. *)
Definition try_finally {A} (body : M A) (fin : M unit) : M A :=
  fun s =>
    match body s with
    | (r, s1) =>
        match fin s1 with
        | (Ok _, s2) => (r, s2)
        | (Raise e, s2) => (Raise e, s2)
        end
    end.

(** ** Operating-system primitives *)

(** [tempfile.NamedTemporaryFile(delete=False, suffix=...)], then
    [write], [flush] and the close at the end of the [with] block: a new
    file holding [data]; its name is returned. The facility is taken to
    succeed: were it to raise, the source would not yet be in its [try]
    block, and what is stated below is stated of calls that reach it. *)
Definition NamedTemporaryFile_write `{Libraries} (suffix : string)
    (data : bytes) : M string :=
  fun s =>
    let p := (tmp_stem (world s) ++ suffix)%string in
    (Ok p, mkState (mkWorld (<[p := data]> (files (world s))) (locked (world s)))
                   (trace s ++ [EvTempWrite p data])).

(** [tempfile.mktemp(suffix=...)]: a name only, no file is created. *)
Definition mktemp `{Libraries} (suffix : string) : M string :=
  fun s =>
    let p := (tmp_stem (world s) ++ suffix)%string in
    (Ok p, mkState (world s) (trace s ++ [EvMktemp p])).

(** [with open(p, "rb") as f: f.read()] *)
Definition open_rb_read (p : string) : M bytes :=
  emit (EvRead p) ;;;
  fun s =>
    match files (world s) !! p with
    | Some data => (Ok data, s)
    | None => (Raise FileNotFoundError, s)
    end.

(** [os.path.exists(p)]; it never raises. *)
Definition os_path_exists (p : string) : M bool :=
  emit (EvExists p) ;;;
  fun s => (Ok (bool_decide (is_Some (files (world s) !! p))), s).

(** [os.unlink(p)] *)
Definition os_unlink (p : string) : M unit :=
  emit (EvUnlink p) ;;;
  fun s =>
    match files (world s) !! p with
    | None => (Raise FileNotFoundError, s)
    | Some _ =>
        if bool_decide (p ∈ locked (world s)) then (Raise PermissionError, s)
        else (Ok tt, mkState (mkWorld (delete p (files (world s)))
                                      (locked (world s)))
                             (trace s))
    end.

(** ** The source functions *)

Section Pipeline.
Context `{Libs : Libraries}.

(** [except (OSError, ValueError):] *)
Definition catches_OSError_or_ValueError (e : exc) : bool :=
  is_OSError e || is_ValueError e.

(** [except OSError:] *)
Definition catches_OSError (e : exc) : bool := is_OSError e.

(** [_post_process_docx(docx_path)]: the first handler returns from the
    function, which is the [None] of the first step. *)
Definition _post_process_docx (docx_path : string) : M unit :=
  opened <- try_except
              (emit (EvDocument docx_path) ;;;
               doc <- query (Document docx_path) ;;
               ret (Some doc))
              catches_OSError_or_ValueError
              (ret None) ;;
  match opened with
  | None => ret tt
  | Some doc =>
      try_except
        (emit (EvSave docx_path) ;;;
         call (doc_save doc docx_path))
        catches_OSError
        (ret tt)
  end.

(** The [for] loop of the [finally] block. *)
Fixpoint cleanup (ps : list string) : M unit :=
  match ps with
  | [] => ret tt
  | p :: rest =>
      try_except
        (if bool_decide (p ≠ ""%string) then
           there <- os_path_exists p ;;
           if there then os_unlink p else ret tt
         else ret tt)
        catches_OSError
        (ret tt) ;;;
      cleanup rest
  end.

(** The status the source returns beside the bytes. *)
Definition STATUS : str :=
  lit "Converted with pdf2docx (layout=True) + post-processing".

(** The [try] block of [convert_pdf_bytes_to_docx]. *)
Definition convert_body (pdf_path out_docx_path : string) : M (bytes * str) :=
  emit (EvConverter pdf_path) ;;;
  cv <- call (Converter pdf_path) ;;
  emit (EvConvert out_docx_path 0 None true) ;;;
  call (cv_convert cv out_docx_path 0 None true) ;;;
  emit EvClose ;;;
  call (cv_close cv) ;;;
  _post_process_docx out_docx_path ;;;
  data <- open_rb_read out_docx_path ;;
  ret (data, STATUS).

(** [convert_pdf_bytes_to_docx(pdf_bytes)] *)
Definition convert_pdf_bytes_to_docx (pdf_bytes : bytes) : M (bytes * str) :=
  pdf_path <- NamedTemporaryFile_write ".pdf" pdf_bytes ;;
  out_docx_path <- mktemp ".docx" ;;
  try_finally
    (convert_body pdf_path out_docx_path)
    (cleanup [pdf_path; out_docx_path]).

(** The names and states a call goes through, for stating what it does:
    the input path, the output path, and the state on entry to the [try]
    block. *)
Definition pdf_path_of (s : State) : string :=
  (tmp_stem (world s) ++ ".pdf")%string.

Definition before_try (pdf_bytes : bytes) (s : State) : State :=
  snd ((NamedTemporaryFile_write ".pdf" pdf_bytes ;;; mktemp ".docx") s).

Definition out_path_of (pdf_bytes : bytes) (s : State) : string :=
  (tmp_stem (world (before_try pdf_bytes s)) ++ ".docx")%string.

(** The state when the [try] block is left, before the [finally] block
    runs. *)
Definition after_try (pdf_bytes : bytes) (s : State) : State :=
  snd (convert_body (pdf_path_of s) (out_path_of pdf_bytes s)
                    (before_try pdf_bytes s)).

(** [docx_text_preview(docx_bytes, max_paragraphs)] *)
Definition docx_text_preview (docx_bytes : bytes) (max_paragraphs : Z)
    : result str :=
  match Document_of_bytes docx_bytes with
  | Raise e => Raise e
  | Ok doc => Ok (preview_of (paragraphs doc) max_paragraphs)
  end.

End Pipeline.

(** ** The preview as the specification words it *)

(** Every paragraph trimmed, in document order. *)
Definition trimmed (ps : list Paragraph) : list str :=
  List.map (fun p => strip (text_or_empty p)) ps.

(** The trimmed texts that are not empty. *)
Definition kept (ps : list Paragraph) : list str :=
  List.filter truthy (trimmed ps).

(** "Iterates the document's paragraphs in order, trims each, skips empty
    ones after trimming, stops once the cap is reached": the first [cap]
    kept texts. *)
Definition preview_spec (ps : list Paragraph) (cap : Z) : list str :=
  take (Z.to_nat cap) (kept ps).

(** Empty or white space only. *)
Definition blank (s : str) : bool := forallb isspace s.

(** A string with no line feed in it. *)
Definition one_line (s : str) : Prop := LF ∉ s.

(** A paragraph whose text is the literal [s]. *)
Definition para (s : string) : Paragraph := mkParagraph (Some (lit s)).

(** ** Scripted collaborators

    Concrete libraries for running the pipeline: a script fixes what each
    call does. The converter handle is the path it was opened on; the
    parsed document is its list of paragraphs. *)
Record Script := mkScript {
  on_Converter : option exc;     (* [Converter(path)] raises this *)
  on_convert : option exc;       (* [cv.convert] raises this *)
  on_close : option exc;         (* [cv.close] raises this *)
  on_Document : option exc;      (* [Document(path)] raises this *)
  on_save : option exc;          (* [doc.save] raises this *)
  holds_input : bool;            (* the handle locks the input until closed *)
  produced : bytes;              (* what [cv.convert] writes *)
  resaved : bytes;               (* what [doc.save] writes *)
  parsed : bytes -> list Paragraph; (* what [Document(BytesIO(b))] parses to *)
  stem : string                  (* what [tempfile] picks *)
}.

Definition write_file (p : string) (data : bytes) (w : World) : World :=
  mkWorld (<[p := data]> (files w)) (locked w).

Definition scripted (sc : Script) : Libraries := {|
  Cv := string;
  Doc := list Paragraph;
  Converter p w :=
    match on_Converter sc with
    | Some e => (Raise e, w)
    | None =>
        (Ok p, if holds_input sc then mkWorld (files w) ({[p]} ∪ locked w) else w)
    end;
  cv_convert cv out _ _ _ w :=
    match on_convert sc with
    | Some e => (Raise e, w)
    | None => (Ok tt, write_file out (produced sc) w)
    end;
  cv_close cv w :=
    match on_close sc with
    | Some e => (Raise e, w)
    | None => (Ok tt, mkWorld (files w) (locked w ∖ {[cv]}))
    end;
  Document p w :=
    match on_Document sc with
    | Some e => Raise e
    | None => Ok (parsed sc [])
    end;
  doc_save d p w :=
    match on_save sc with
    | Some e => (Raise e, w)
    | None => (Ok tt, write_file p (resaved sc) w)
    end;
  Document_of_bytes b := Ok (parsed sc b);
  paragraphs d := d;
  tmp_stem _ := stem sc
|}.

(** The script in which every call goes well. *)
Definition quiet : Script := {|
  on_Converter := None; on_convert := None; on_close := None;
  on_Document := None; on_save := None; holds_input := false;
  produced := [Byte.x50; Byte.x4b]; resaved := [Byte.x50; Byte.x4b; Byte.x03];
  parsed := fun _ => [para "Hello"];
  stem := "/tmp/tmpk3"
|}.

(** The quiet script over a reader that knows two documents: the empty
    byte string is [ps1], anything else is [ps2]. *)
Definition reading (ps1 ps2 : list Paragraph) : Script :=
  mkScript None None None None None false (produced quiet) (resaved quiet)
           (fun b => match b with [] => ps1 | _ => ps2 end) (stem quiet).

Definition ValueError : exc := mkExc "ValueError" false true.
Definition OSError : exc := mkExc "OSError" true false.
Definition RuntimeError : exc := mkExc "RuntimeError" false false.

(** The machine before a call: no file, nothing locked, nothing asked. *)
Definition boot : State := mkState (mkWorld ∅ ∅) [].

(** The script in which [doc.save] raises [e]. *)
Definition save_raises (e : exc) : Script :=
  mkScript None None None None (Some e) false (produced quiet) (resaved quiet)
           (parsed quiet) (stem quiet).

(** The script in which [Document(path)] raises [e]. *)
Definition open_raises (e : exc) : Script :=
  mkScript None None None (Some e) None false (produced quiet) (resaved quiet)
           (parsed quiet) (stem quiet).

(** The script in which the converter keeps the input file open and
    [cv.convert] raises [e]: [cv.close()] is then never reached. *)
Definition convert_raises_holding (e : exc) : Script :=
  mkScript None (Some e) None None None true (produced quiet) (resaved quiet)
           (parsed quiet) (stem quiet).

(** ** Non-empty files *)


(** ** One round of the [finally] loop, in closed form *)

(** The world after the round for [p]: the file is gone unless the path
    is empty, the file is missing or its removal is refused. *)
Definition removed (p : string) (w : World) : World :=
  if bool_decide (p ≠ ""%string) && bool_decide (is_Some (files w !! p))
     && negb (bool_decide (p ∈ locked w))
  then mkWorld (delete p (files w)) (locked w) else w.

(** What the round for [p] asks of the operating system. *)
Definition removal_events (p : string) (w : World) : list Event :=
  if bool_decide (p ≠ ""%string) then
    if bool_decide (is_Some (files w !! p)) then [EvExists p; EvUnlink p]
    else [EvExists p]
  else [].


(** The documents of the worked examples of the specification. *)
Definition doc_blank_hello_world : list Paragraph :=
  [para ""; para "  "; para "Hello"; para "World"].

Definition doc_abc : list Paragraph := [para "A"; para "B"; para "C"].

(** A document whose second paragraph is blank. *)
Definition doc_a_blank_b_c : list Paragraph :=
  [para "A"; para " "; para "B"; para "C"].

(** A document of one paragraph with a line break inside. *)
Definition doc_line_break : list Paragraph :=
  [mkParagraph (Some (lit "A" ++ [LF] ++ lit "B"))].

(** ** [os.path.splitext]

    The path module of the standard library, as [main] uses it: the
    generic [_splitext(p, sep, altsep, extsep)] that both [posixpath] and
    [ntpath] call. *)

(** [s.rfind(c)] for a one-character [c], scanning from index [i] with
    the last match so far in [found]. *)
Fixpoint rfind_from (i : Z) (s : str) (c : N) (found : Z) : Z :=
  match s with
  | [] => found
  | d :: s' => rfind_from (i + 1) s' c (if (d =? c)%N then i else found)
  end.

(** The highest index of [c] in [s], [-1] when there is none. *)
Definition rfind (s : str) (c : N) : Z := rfind_from 0 s c (-1).

(** [p[a:b]] for [0 <= a]. *)
Definition slice (p : str) (a b : Z) : str :=
  take (Z.to_nat (b - a)) (drop (Z.to_nat a) p).

(** The [while] loop of [_splitext]: [true] when it reaches the [return]
    inside, that is when a character other than [extsep] stands between
    [filenameIndex] and [dotIndex]. The loop makes at most
    [dotIndex - filenameIndex] rounds, which is the [fuel] it is given. *)
Fixpoint splitext_scan (fuel : nat) (p : str) (extsep : N)
    (filenameIndex dotIndex : Z) : bool :=
  match fuel with
  | O => false
  | S fuel' =>
      if filenameIndex <? dotIndex then
        if bool_decide (slice p filenameIndex (filenameIndex + 1) ≠ [extsep])
        then true
        else splitext_scan fuel' p extsep (filenameIndex + 1) dotIndex
      else false
  end.

Definition _splitext (p : str) (sep : N) (altsep : option N) (extsep : N)
    : str * str :=
  let sepIndex := rfind p sep in
  let sepIndex :=
    match altsep with
    | Some a => Z.max sepIndex (rfind p a)
    | None => sepIndex
    end in
  let dotIndex := rfind p extsep in
  if (dotIndex >? sepIndex)
     && splitext_scan (Z.to_nat (dotIndex - (sepIndex + 1))) p extsep
                      (sepIndex + 1) dotIndex
  then (slice p 0 dotIndex, drop (Z.to_nat dotIndex) p)
  else (p, []).

(** The two flavours of [os.path]. *)
Inductive Platform := Posix | Nt.

Definition DOT : N := 46%N.

Definition os_sep (os : Platform) : N :=
  match os with Posix => 47%N | Nt => 92%N end.

Definition os_altsep (os : Platform) : option N :=
  match os with Posix => None | Nt => Some 47%N end.

(** [os.path.splitext(p)] *)
Definition splitext (os : Platform) (p : str) : str * str :=
  _splitext p (os_sep os) (os_altsep os) DOT.

(** ** The interactive shell *)

(** The calls [main] makes into Streamlit, with their arguments; a
    [with] block is its two ends. *)
Inductive Widget :=
| SetPageConfig (page_title page_icon layout initial_sidebar_state : str)
| Markdown (body : str) (unsafe_allow_html : bool)
| Title (body : str)
| Columns (spec : list Z)
| EnterColumn (i : nat)
| ExitColumn (i : nat)
| Subheader (body : str)
| FileUploader (label : str) (type : list str) (help : str)
| Info (body : str)
| EnterSpinner (text_ : str)
| ExitSpinner
| Success (body : str)
| Caption (body : str)
| Code (body : str) (language : str)
| DownloadButton (label : str) (data : bytes) (file_name : str) (mime : str)
                 (use_container_width : bool) (help : str).

(** What [st.file_uploader] hands back when a file was chosen. *)
Record UploadedFile := mkUpload {
  name : str;
  getvalue : bytes
}.

(** One run of the script: the machine and what has been put on the
    page. *)
Record Session := mkSession {
  machine : State;
  screen : list Widget
}.

Definition UI (A : Type) : Type := Session -> result A * Session.

Definition ui_ret {A} (a : A) : UI A := fun ss => (Ok a, ss).

Definition ui_bind {A B} (c : UI A) (k : A -> UI B) : UI B :=
  fun ss =>
    match c ss with
    | (Ok a, ss') => k a ss'
    | (Raise e, ss') => (Raise e, ss')
    end.

Notation "x <~ c ;; k" := (ui_bind c (fun x => k))
  (at level 90, c at level 89, right associativity).
Notation "c >>> k" := (ui_bind c (fun _ => k))
  (at level 90, right associativity).

(** A Streamlit call that draws. *)
Definition show (w : Widget) : UI unit :=
  fun ss => (Ok tt, mkSession (machine ss) (screen ss ++ [w])).

(** A computation on the machine, run from the script. *)
Definition run {A} (m : M A) : UI A :=
  fun ss => let (r, s') := m (machine ss) in (r, mkSession s' (screen ss)).

(** A computation that touches nothing. *)
Definition eval {A} (r : result A) : UI A := fun ss => (r, ss).

(** [with ctx: body]: the block is left on every exit of [body], and an
    exception of [body] goes on. *)
Definition within {A} (enter leave : Widget) (body : UI A) : UI A :=
  fun ss =>
    match body (mkSession (machine ss) (screen ss ++ [enter])) with
    | (r, ss') => (r, mkSession (machine ss') (screen ss' ++ [leave]))
    end.

Definition CUSTOM_CSS : str := lit "
    <style>
    .main { background-color: #f0f2f6; }
    .stApp { background-color: #ffffff; border-radius: 10px; padding: 20px; box-shadow: 0 4px 8px rgba(0,0,0,0.1); }
    .stTitle { color: #1f77b4; font-family: 'Arial', sans-serif; font-weight: bold; }
    .stMarkdown { color: #333333; }
    .stButton>button { background-color: #ff7f0e; color: white; border-radius: 5px; border: none; padding: 10px 20px; font-weight: bold; }
    .stButton>button:hover { background-color: #e66a0a; }
    .stFileUploader { border: 2px dashed #1f77b4; border-radius: 10px; padding: 20px; background-color: #f9f9f9; }
    .stSuccess { background-color: #d4edda; color: #155724; border: 1px solid #c3e6cb; border-radius: 5px; padding: 10px; }
    .stInfo { background-color: #d1ecf1; color: #0c5460; border: 1px solid #bee5eb; border-radius: 5px; padding: 10px; }
    .stSpinner { color: #1f77b4; }
    .stCode { background-color: #f8f9fa; border: 1px solid #dee2e6; border-radius: 5px; padding: 10px; }
    .stDownloadButton { background-color: #28a745; color: white; border-radius: 5px; border: none; padding: 10px 20px; font-weight: bold; }
    .stDownloadButton:hover { background-color: #218838; }
    </style>
    ".

Definition PAGE_TITLE : str := lit "DataScienceWallah PDF to Docx Converter".

Definition INTRO : str :=
  lit "Transform your PDFs into editable DOCX files with **layout preservation**. "
  ++ lit "Powered by advanced conversion technology for high-fidelity results. "
  ++ lit "Upload, convert, and download in seconds! " ++ [128640%N].

Definition NO_TEXT : str := lit "No text extracted from the DOCX.".

Definition SPINNER_TEXT : str :=
  128260%N :: lit " Converting your PDF to DOCX... Please wait.".

Definition SUCCESS_TEXT : str :=
  9989%N :: lit " Conversion completed successfully!".

(** The literal part of the f-string of [st.caption]. *)
Definition INFO_PREFIX : str := [8505%N; 65039%N] ++ lit " ".

Definition PREVIEW_HEADING : str := 128064%N :: lit " Text Preview".

Definition DOWNLOAD_HEADING : str :=
  [11015%N; 65039%N] ++ lit " Download Your DOCX".

Definition DOWNLOAD_LABEL : str := 128229%N :: lit " Download DOCX".

Definition DOWNLOAD_HELP : str :=
  lit "Click to download the converted DOCX file.".

Definition DOCX_MIME : str :=
  lit "application/vnd.openxmlformats-officedocument.wordprocessingml.document".

(** The download name: [os.path.splitext(uploaded.name)[0] + ".docx"]. *)
Definition out_name_of (os : Platform) (uploaded : UploadedFile) : str :=
  fst (splitext os (name uploaded)) ++ lit ".docx".

Section Shell.
Context `{Libs : Libraries}.
Variable os : Platform.

(** The body of [if uploaded:] in the second column. *)
Definition main_convert (uploaded : UploadedFile) : UI unit :=
  let pdf_bytes := getvalue uploaded in
  res <~ within (EnterSpinner SPINNER_TEXT) ExitSpinner
                (run (convert_pdf_bytes_to_docx pdf_bytes)) ;;
  let docx_bytes := fst res in
  let debug := snd res in
  show (Success SUCCESS_TEXT) >>>
  show (Caption (INFO_PREFIX ++ debug)) >>>
  show (Subheader PREVIEW_HEADING) >>>
  preview <~ eval (docx_text_preview docx_bytes 20) ;;
  (if truthy preview then show (Code preview (lit "text"))
   else show (Info NO_TEXT)) >>>
  show (Subheader DOWNLOAD_HEADING) >>>
  let out_name := out_name_of os uploaded in
  show (DownloadButton DOWNLOAD_LABEL docx_bytes out_name DOCX_MIME true
                       DOWNLOAD_HELP).

(** [main()], [uploaded] being what [st.file_uploader] returns: [None]
    when no file was chosen. *)
Definition main (uploaded : option UploadedFile) : UI unit :=
  show (SetPageConfig PAGE_TITLE [128196%N] (lit "wide") (lit "expanded")) >>>
  show (Markdown CUSTOM_CSS true) >>>
  show (Title (128196%N :: lit " " ++ PAGE_TITLE)) >>>
  show (Markdown INTRO false) >>>
  show (Columns [1; 2]) >>>
  within (EnterColumn 1) (ExitColumn 1)
    (show (Subheader (128228%N :: lit " Upload Your PDF")) >>>
     show (FileUploader (lit "Choose a PDF file") [lit "pdf"]
                        (lit "Select a PDF to convert to DOCX.")) >>>
     match uploaded with
     | None =>
         show (Info (128070%N :: lit " Upload a PDF to get started. Supported formats: PDF only."))
     | Some _ => ui_ret tt
     end) >>>
  within (EnterColumn 2) (ExitColumn 2)
    (match uploaded with
     | Some up => main_convert up
     | None => ui_ret tt
     end).

End Shell.

(** What [main] draws before the work of the second column. *)
Definition page_head (uploaded : option UploadedFile) : list Widget :=
  [SetPageConfig PAGE_TITLE [128196%N] (lit "wide") (lit "expanded");
   Markdown CUSTOM_CSS true;
   Title (128196%N :: lit " " ++ PAGE_TITLE);
   Markdown INTRO false;
   Columns [1; 2];
   EnterColumn 1;
   Subheader (128228%N :: lit " Upload Your PDF");
   FileUploader (lit "Choose a PDF file") [lit "pdf"]
                (lit "Select a PDF to convert to DOCX.")]
  ++ match uploaded with
     | None =>
         [Info (128070%N :: lit " Upload a PDF to get started. Supported formats: PDF only.")]
     | Some _ => []
     end
  ++ [ExitColumn 1; EnterColumn 2].

(** Libraries that convert as the quiet script does but cannot read the
    converted bytes back: [Document(BytesIO(b))] raises. *)
Definition unreadable_output : Libraries := {|
  Cv := string;
  Doc := list Paragraph;
  Converter := Converter (Libraries := scripted quiet);
  cv_convert := cv_convert (Libraries := scripted quiet);
  cv_close := cv_close (Libraries := scripted quiet);
  Document := Document (Libraries := scripted quiet);
  doc_save := doc_save (Libraries := scripted quiet);
  Document_of_bytes _ := Raise ValueError;
  paragraphs d := d;
  tmp_stem := tmp_stem (Libraries := scripted quiet)
|}.

(** An upload and a session to run the script on. *)
Definition upload_report : UploadedFile :=
  mkUpload (lit "report.pdf") [Byte.x25].

Definition fresh_session : Session := mkSession boot [].

(** The widgets that announce or carry a finished conversion. *)
Definition shows_result (w : Widget) : bool :=
  match w with
  | Success _ | Caption _ | Code _ _ | DownloadButton _ _ _ _ _ _ => true
  | _ => false
  end.

(** What [main_convert] draws before the preview is computed. *)
Definition drawn_before_preview (debug : str) : list Widget :=
  [EnterSpinner SPINNER_TEXT; ExitSpinner; Success SUCCESS_TEXT;
   Caption (INFO_PREFIX ++ debug); Subheader PREVIEW_HEADING].

(** The download buttons on a page: their bytes, file name and type. *)
Fixpoint downloads (scr : list Widget) : list (bytes * str * str) :=
  match scr with
  | [] => []
  | DownloadButton _ data file_name mime _ _ :: scr' =>
      (data, file_name, mime) :: downloads scr'
  | _ :: scr' => downloads scr'
  end.

(** The last character of a path. *)
Fixpoint last_char (s : string) : option ascii :=
  match s with
  | EmptyString => None
  | String c EmptyString => Some c
  | String _ s' => last_char s'
  end.

(** The world after the [finally] loop over [ps]. *)
Definition swept (ps : list string) (w : World) : World :=
  foldl (fun w p => removed p w) w ps.

(** A path the [finally] loop has nothing left to do for: it is empty,
    or no file is there, or the removal of the file is refused. *)
Definition settled (p : string) (w : World) : Prop :=
  p = ""%string \/ files w !! p = None \/ p ∈ locked w.



(** Libraries that convert as the quiet script does, but whose
    [doc.save] empties the file it writes to and then raises an
    [OSError]: the archive was opened for writing and the disk gave
    out. *)
Definition truncating_save : Libraries := {|
  Cv := string;
  Doc := list Paragraph;
  Converter := Converter (Libraries := scripted quiet);
  cv_convert := cv_convert (Libraries := scripted quiet);
  cv_close := cv_close (Libraries := scripted quiet);
  Document := Document (Libraries := scripted quiet);
  doc_save d p w := (Raise OSError, write_file p [] w);
  Document_of_bytes := Document_of_bytes (Libraries := scripted quiet);
  paragraphs d := d;
  tmp_stem := tmp_stem (Libraries := scripted quiet)
|}.

(** A machine holding one file, the output of a conversion. *)
Definition with_output (p : string) : State :=
  mkState (write_file p (produced quiet) (world boot)) [].

(** ** The preview in terms of the paragraph texts themselves *)

(** The text of a paragraph as python-docx gives it, [None] being no
    text. *)
Definition raw_text (p : Paragraph) : str :=
  match text p with
  | Some s => s
  | None => []
  end.

(** [t] is [s] without its leading and trailing white space: [s] is [t]
    between two blank strings, and [t] neither starts nor ends with a
    white-space character. *)
Definition is_trim_of (t s : str) : Prop :=
  (exists a b, s = a ++ t ++ b /\ blank a = true /\ blank b = true) /\
  (forall c u, t = c :: u -> isspace c = false) /\
  (forall u c, t = u ++ [c] -> isspace c = false).

(** The paragraphs whose text is not blank, in document order. *)
Definition nonblank_paragraphs (ps : list Paragraph) : list Paragraph :=
  List.filter (fun p => negb (blank (raw_text p))) ps.

(** A document whose texts carry white space around them. *)
Definition doc_padded : list Paragraph :=
  [para " A "; para "  "; mkParagraph None; para "B  "; para "C"].

(** A document of one paragraph with a blank line inside. *)
Definition doc_blank_line : list Paragraph :=
  [mkParagraph (Some (lit "A" ++ [LF] ++ lit " " ++ [LF] ++ lit "B"))].

(** * Properties of the preview extractor *)

Section StringFacts.

Lemma lstrip_nil_blank (s : str) : lstrip s = [] <-> blank s = true.
Proof.
  induction s as [|c s IH]; simpl; [tauto|].
  destruct (isspace c); simpl; [exact IH|].
  split; discriminate.
Qed.

Lemma lstrip_head (s : str) (c : N) (s' : str) :
  lstrip s = c :: s' -> isspace c = false.
Proof.
  induction s as [|d s IH]; simpl; [discriminate|].
  destruct (isspace d) eqn:Hd; [exact IH|].
  intros [= -> _]. exact Hd.
Qed.

Lemma blank_app (s t : str) : blank (s ++ t) = blank s && blank t.
Proof. apply forallb_app. Qed.

Lemma blank_rev (s : str) : blank (rev s) = blank s.
Proof.
  induction s as [|c s IH]; [reflexivity|].
  simpl rev. rewrite blank_app, IH. simpl.
  rewrite andb_true_r. apply andb_comm.
Qed.

Lemma rev_nil_inv (s : str) : rev s = [] -> s = [].
Proof.
  intros H. apply (f_equal (@rev N)) in H.
  rewrite rev_involutive in H. exact H.
Qed.

(** Trimming leaves nothing exactly when the text was blank. *)
Lemma strip_nil_blank (s : str) : strip s = [] <-> blank s = true.
Proof.
  unfold strip, rstrip. split.
  - intros H. apply rev_nil_inv in H.
    apply lstrip_nil_blank in H. rewrite blank_rev in H.
    destruct (lstrip s) as [|c s'] eqn:E.
    + apply lstrip_nil_blank. exact E.
    + apply lstrip_head in E. simpl in H. rewrite E in H. discriminate.
  - intros H. apply lstrip_nil_blank in H. rewrite H. reflexivity.
Qed.

Lemma truthy_nil (s : str) : truthy s = false <-> s = [].
Proof. destruct s; simpl; split; congruence. Qed.

Lemma truthy_strip (s : str) : truthy (strip s) = negb (blank s).
Proof.
  destruct (blank s) eqn:B; simpl.
  - apply truthy_nil, strip_nil_blank, B.
  - destruct (truthy (strip s)) eqn:T; [reflexivity|].
    apply truthy_nil, strip_nil_blank in T. congruence.
Qed.

Lemma split_lines_aux_one_line (x cur rest : str) :
  one_line x ->
  split_lines_aux cur (x ++ rest) = split_lines_aux (cur ++ x) rest.
Proof.
  unfold one_line. revert cur.
  induction x as [|c x IH]; intros cur Hx; simpl.
  - rewrite app_nil_r. reflexivity.
  - apply not_elem_of_cons in Hx as [Hc Hx].
    destruct (N.eqb_spec c LF) as [->|_]; [congruence|].
    rewrite IH by exact Hx. rewrite <- app_assoc. reflexivity.
Qed.

(** Splitting a join gives the joined strings back, when none of them
    holds a line feed. *)
Lemma split_lines_aux_join (x : str) (l : list str) (cur : str) :
  Forall one_line (x :: l) ->
  split_lines_aux cur (join [LF] (x :: l)) = (cur ++ x) :: l.
Proof.
  revert x cur. induction l as [|y l IH]; intros x cur H.
  - simpl. rewrite <- (app_nil_r x) at 1.
    rewrite split_lines_aux_one_line by (inversion H; assumption).
    reflexivity.
  - inversion H as [|? ? Hx Hl]; subst.
    change (join [LF] (x :: y :: l)) with (x ++ [LF] ++ join [LF] (y :: l)).
    rewrite split_lines_aux_one_line by exact Hx.
    change ([LF] ++ join [LF] (y :: l)) with (LF :: join [LF] (y :: l)).
    cbn [split_lines_aux]. rewrite N.eqb_refl.
    rewrite IH by exact Hl. reflexivity.
Qed.

Lemma split_lines_join_length (l : list str) :
  Forall one_line l ->
  length (split_lines (join [LF] l)) = Nat.max 1 (length l).
Proof.
  intros H. destruct l as [|x l]; [reflexivity|].
  unfold split_lines. rewrite split_lines_aux_join by exact H.
  simpl. reflexivity.
Qed.

End StringFacts.

Section LoopFacts.

Lemma kept_cons (p : Paragraph) (ps : list Paragraph) :
  kept (p :: ps) =
  if truthy (strip (text_or_empty p))
  then strip (text_or_empty p) :: kept ps else kept ps.
Proof. reflexivity. Qed.

(** The loop, started below the cap, appends the next kept texts up to
    the cap. *)
Lemma preview_loop_below (ps : list Paragraph) (cap : Z) (out : list str) :
  Z.of_nat (length out) < cap ->
  preview_loop ps cap out
  = out ++ take (Z.to_nat cap - length out)%nat (kept ps).
Proof.
  revert out. induction ps as [|p ps IH]; intros out Hlt.
  - change (kept []) with (@nil str).
    rewrite take_nil, app_nil_r. reflexivity.
  - cbn [preview_loop]. rewrite kept_cons.
    destruct (truthy (strip (text_or_empty p))) eqn:T.
    + destruct (Z.geb_spec (Z.of_nat (length (out ++ [strip (text_or_empty p)]))) cap)
        as [Hge|Hlt'];
        rewrite length_app in *; simpl in *.
      * replace (Z.to_nat cap - length out)%nat with 1%nat by lia.
        simpl. rewrite take_0. reflexivity.
      * rewrite IH by (rewrite length_app; simpl; lia).
        rewrite length_app. simpl.
        replace (Z.to_nat cap - length out)%nat
          with (S (Z.to_nat cap - (length out + 1)))%nat by lia.
        simpl. rewrite <- app_assoc. reflexivity.
    + destruct (Z.geb_spec (Z.of_nat (length out)) cap); [lia|].
      apply IH. exact Hlt.
Qed.

(** With a positive cap the loop computes the specification's list. *)
Lemma preview_loop_refines (ps : list Paragraph) (cap : Z) :
  1 <= cap -> preview_loop ps cap [] = preview_spec ps cap.
Proof.
  intros H. rewrite preview_loop_below by (simpl; lia).
  unfold preview_spec. simpl. rewrite Nat.sub_0_r. reflexivity.
Qed.

Lemma kept_app (ps1 ps2 : list Paragraph) :
  kept (ps1 ++ ps2) = kept ps1 ++ kept ps2.
Proof. unfold kept, trimmed. rewrite List.map_app, List.filter_app. reflexivity. Qed.

Lemma kept_sublist (ps : list Paragraph) : sublist (kept ps) (trimmed ps).
Proof.
  unfold kept. induction (trimmed ps) as [|t ts IH]; simpl.
  - constructor.
  - destruct (truthy t); constructor; exact IH.
Qed.

Lemma kept_origin (ps : list Paragraph) :
  Forall (fun t => exists p, p ∈ ps /\ t = strip (text_or_empty p)
                             /\ blank (text_or_empty p) = false)
         (kept ps).
Proof.
  induction ps as [|p ps IH]; [constructor|].
  rewrite kept_cons.
  assert (Forall (fun t => exists q, q ∈ p :: ps /\ t = strip (text_or_empty q)
                                     /\ blank (text_or_empty q) = false)
                 (kept ps)) as IH'.
  { eapply Forall_impl; [exact IH|]. intros t (q & Hq & Ht & Hb).
    exists q. split; [apply elem_of_cons; right; exact Hq|]. split; assumption. }
  destruct (truthy (strip (text_or_empty p))) eqn:T; [|exact IH'].
  constructor; [|exact IH'].
  exists p. split; [apply elem_of_cons; left; reflexivity|]. split; [reflexivity|].
  rewrite truthy_strip in T. destruct (blank (text_or_empty p)); [discriminate|reflexivity].
Qed.

End LoopFacts.

Section PreviewClaims.
Context `{Libs : Libraries}.

(** C6. The two worked examples of the specification: paragraphs
    ["", "  ", "Hello", "World"] with cap 1 give "Hello", and paragraphs
    ["A", "B", "C"] with cap 5 give "A\nB\nC". *)
Theorem docx_text_preview_examples (b1 b2 : bytes) (d1 d2 : Doc) :
  Document_of_bytes b1 = Ok d1 ->
  paragraphs d1 = [para ""; para "  "; para "Hello"; para "World"] ->
  Document_of_bytes b2 = Ok d2 ->
  paragraphs d2 = [para "A"; para "B"; para "C"] ->
  docx_text_preview b1 1 = Ok (lit "Hello") /\
  docx_text_preview b2 5 = Ok (lit "A" ++ [LF] ++ lit "B" ++ [LF] ++ lit "C").
Proof.
  intros E1 P1 E2 P2. unfold docx_text_preview.
  rewrite E1, E2, P1, P2. split; reflexivity.
Qed.

(** C10. With a cap of zero or less the loop stops after the first
    paragraph: the preview is that paragraph's trimmed text when it is not
    empty and the empty string otherwise, the empty string too for a
    document without paragraphs; the later paragraphs are never looked
    at. *)
Theorem docx_text_preview_nonpositive_cap (b : bytes) (doc : Doc) (cap : Z) :
  Document_of_bytes b = Ok doc ->
  cap <= 0 ->
  docx_text_preview b cap
  = Ok (match paragraphs doc with
        | [] => lit ""
        | p :: _ =>
            let t := strip (text_or_empty p) in
            if truthy t then t else lit ""
        end)
  /\ preview_loop (paragraphs doc) cap []
     = preview_loop (take 1 (paragraphs doc)) cap [].
Proof.
  intros E Hcap. unfold docx_text_preview, preview_of. rewrite E.
  destruct (paragraphs doc) as [|p ps]; [split; reflexivity|].
  cbn [preview_loop take].
  destruct (truthy (strip (text_or_empty p))) eqn:T; simpl length.
  - destruct (Z.geb_spec (Z.of_nat 1) cap); [|lia]. split; reflexivity.
  - destruct (Z.geb_spec (Z.of_nat 0) cap); [|lia]. split; reflexivity.
Qed.

(** C3, as amended. With a cap of at least one, the preview is the
    line-feed join of at most [max_paragraphs] trimmed paragraph texts;
    when none of these texts holds a line feed of its own, the returned
    string has at most [max_paragraphs] lines. *)
Theorem docx_text_preview_bounded (b : bytes) (doc : Doc) (cap : Z) :
  Document_of_bytes b = Ok doc ->
  1 <= cap ->
  let lines := preview_loop (paragraphs doc) cap [] in
  docx_text_preview b cap = Ok (join [LF] lines) /\
  Z.of_nat (length lines) <= cap /\
  (Forall one_line lines ->
   Z.of_nat (length (split_lines (join [LF] lines))) <= cap).
Proof.
  intros E Hcap lines. unfold docx_text_preview, preview_of. rewrite E.
  assert (Z.of_nat (length lines) <= cap) as Hlen.
  { subst lines. rewrite preview_loop_refines by exact Hcap.
    unfold preview_spec. rewrite length_take. lia. }
  split; [reflexivity|]. split; [exact Hlen|].
  intros Hone. rewrite split_lines_join_length by exact Hone. lia.
Qed.

End PreviewClaims.

Lemma docx_text_preview_examples_witness :
  docx_text_preview (Libs := scripted (reading doc_blank_hello_world doc_abc))
                    [] 1
  = Ok (lit "Hello") /\
  docx_text_preview (Libs := scripted (reading doc_blank_hello_world doc_abc))
                    [Byte.x01] 5
  = Ok (lit "A" ++ [LF] ++ lit "B" ++ [LF] ++ lit "C").
Proof.
  apply (docx_text_preview_examples
           (Libs := scripted (reading doc_blank_hello_world doc_abc))
           [] [Byte.x01] doc_blank_hello_world doc_abc);
    reflexivity.
Defined.

(** C2, on the source. A cap of zero does not give the empty string: the
    cap is tested only after the first paragraph has been appended, so a
    document whose first paragraph is "Hello" previews as "Hello". *)
Theorem docx_text_preview_cap_zero_keeps_first :
  docx_text_preview (Libs := scripted (reading [para "Hello"; para "World"] []))
                    [] 0
  = Ok (lit "Hello")
  /\ lit "Hello" <> lit "".
Proof. split; [reflexivity|discriminate]. Qed.

Lemma docx_text_preview_nonpositive_cap_witness :
  (-3 <= 0) /\
  docx_text_preview (Libs := scripted (reading [para " Hi "; para "World"] []))
                    [] (-3)
  = Ok (lit "Hi").
Proof.
  split; [lia|].
  destruct (docx_text_preview_nonpositive_cap
              (Libs := scripted (reading [para " Hi "; para "World"] []))
              [] [para " Hi "; para "World"] (-3) eq_refl ltac:(lia))
    as [H _].
  exact H.
Defined.

(** C3, as stated, fails: one paragraph holding a line break, with cap 1,
    previews as a string of two lines. *)
Lemma docx_text_preview_more_lines_than_cap :
  exists s,
    docx_text_preview (Libs := scripted (reading doc_line_break [])) [] 1 = Ok s
    /\ ~ (Z.of_nat (length (split_lines s)) <= 1).
Proof.
  exists (lit "A" ++ [LF] ++ lit "B").
  split; [reflexivity|]. vm_compute. intros H. apply H. reflexivity.
Qed.

Lemma docx_text_preview_bounded_witness :
  (1 <= 2) /\
  Z.of_nat (length (preview_loop doc_a_blank_b_c 2 [])) <= 2.
Proof.
  split; [lia|].
  destruct (docx_text_preview_bounded
              (Libs := scripted (reading doc_a_blank_b_c []))
              [] doc_a_blank_b_c 2 eq_refl ltac:(lia))
    as (_ & H & _).
  exact H.
Defined.

(** * Properties of the conversion pipeline *)

Section PipelineFacts.
Context `{Libs : Libraries}.

(** What the validation pass does, by the outcome of its two calls. *)
Lemma post_process_eq (p : string) (s : State) :
  _post_process_docx p s =
  match Document p (world s) with
  | Raise e =>
      (if catches_OSError_or_ValueError e then Ok tt else Raise e,
       mkState (world s) (trace s ++ [EvDocument p]))
  | Ok d =>
      match doc_save d p (world s) with
      | (Ok _, w') => (Ok tt, mkState w' (trace s ++ [EvDocument p; EvSave p]))
      | (Raise e, w') =>
          (if catches_OSError e then Ok tt else Raise e,
           mkState w' (trace s ++ [EvDocument p; EvSave p]))
      end
  end.
Proof.
  unfold _post_process_docx, bind, try_except, emit, query, call, ret.
  simpl. destruct (Document p (world s)) as [d|e]; simpl.
  - rewrite <- app_assoc. simpl.
    destruct (doc_save d p (world s)) as [[[]|e] w']; simpl; [reflexivity|].
    destruct (catches_OSError e); reflexivity.
  - destruct (catches_OSError_or_ValueError e); reflexivity.
Qed.

(** One round of the [finally] loop never raises. *)
Lemma cleanup_cons (p : string) (rest : list string) (s : State) :
  cleanup (p :: rest) s
  = cleanup rest (mkState (removed p (world s))
                          (trace s ++ removal_events p (world s))).
Proof.
  destruct s as [[fs lk] tr].
  cbn [cleanup]. unfold bind at 1. unfold try_except, removed, removal_events.
  destruct (bool_decide (p ≠ ""%string)); simpl.
  - unfold os_path_exists, os_unlink, bind, emit, ret. simpl.
    destruct (fs !! p) as [data|] eqn:E; simpl.
    + rewrite E. simpl. rewrite <- app_assoc.
      destruct (bool_decide (p ∈ lk)); reflexivity.
    + reflexivity.
  - unfold ret. rewrite app_nil_r. reflexivity.
Qed.

Lemma cleanup_total (ps : list string) (s : State) :
  fst (cleanup ps s) = Ok tt.
Proof.
  revert s. induction ps as [|p ps IH]; intros s; [reflexivity|].
  rewrite cleanup_cons. apply IH.
Qed.

(** The [finally] block of the source, over its two paths. *)
Lemma cleanup_two (p1 p2 : string) (s : State) :
  cleanup [p1; p2] s
  = (Ok tt,
     mkState (removed p2 (removed p1 (world s)))
             (trace s ++ removal_events p1 (world s)
                      ++ removal_events p2 (removed p1 (world s)))).
Proof.
  rewrite !cleanup_cons. cbn [cleanup world trace]. unfold ret.
  rewrite <- app_assoc. reflexivity.
Qed.


Lemma removed_locked (p : string) (w : World) :
  locked (removed p w) = locked w.
Proof. unfold removed. destruct (_ && _); reflexivity. Qed.

Lemma removed_absent (p q : string) (w : World) :
  files w !! q = None -> files (removed p w) !! q = None.
Proof.
  intros H. unfold removed. destruct (_ && _); [|exact H].
  simpl. destruct (decide (p = q)) as [->|Hne].
  - apply lookup_delete_eq.
  - rewrite lookup_delete_ne by exact Hne. exact H.
Qed.

(** A round removes its file when the path is not empty and the removal
    is not refused. *)
Lemma removed_gone (p : string) (w : World) :
  p <> ""%string -> p ∉ locked w -> files (removed p w) !! p = None.
Proof.
  intros Hp Hl. unfold removed.
  rewrite (bool_decide_eq_true_2 _ Hp), (bool_decide_eq_false_2 _ Hl). simpl.
  case_bool_decide as E; simpl.
  - apply lookup_delete_eq.
  - destruct (files w !! p) eqn:F; [|reflexivity].
    exfalso. apply E. eauto.
Qed.

(** A round keeps a file whose removal is refused. *)
Lemma removed_kept (p q : string) (w : World) :
  q ∈ locked w -> files (removed p w) !! q = files w !! q.
Proof.
  intros Hl. unfold removed.
  destruct (bool_decide (p ≠ ""%string)); [|reflexivity].
  destruct (bool_decide (is_Some (files w !! p))); [|reflexivity].
  case_bool_decide as E; [reflexivity|]. simpl.
  apply lookup_delete_ne. intros ->. contradiction.
Qed.

Lemma suffixed_not_empty (a : string) (c : ascii) (b : string) :
  (a ++ String c b)%string <> ""%string.
Proof. destruct a; discriminate. Qed.

(** The try block, by the outcome of each call in turn. *)
Lemma convert_body_eq (pdf out : string) (s : State) :
  convert_body pdf out s =
  match Converter pdf (world s) with
  | (Raise e, w1) => (Raise e, mkState w1 (trace s ++ [EvConverter pdf]))
  | (Ok cv, w1) =>
    match cv_convert cv out 0 None true w1 with
    | (Raise e, w2) =>
        (Raise e,
         mkState w2 (trace s ++ [EvConverter pdf; EvConvert out 0 None true]))
    | (Ok _, w2) =>
      match cv_close cv w2 with
      | (Raise e, w3) =>
          (Raise e,
           mkState w3 (trace s ++ [EvConverter pdf; EvConvert out 0 None true;
                                   EvClose]))
      | (Ok _, w3) =>
        match _post_process_docx out
                (mkState w3 (trace s ++ [EvConverter pdf;
                                         EvConvert out 0 None true; EvClose]))
        with
        | (Raise e, s4) => (Raise e, s4)
        | (Ok _, s4) =>
            (match files (world s4) !! out with
             | Some data => Ok (data, STATUS)
             | None => Raise FileNotFoundError
             end,
             mkState (world s4) (trace s4 ++ [EvRead out]))
        end
      end
    end
  end.
Proof.
  unfold convert_body, open_rb_read, bind, emit, call, ret. simpl.
  destruct (Converter pdf (world s)) as [[cv|e] w1]; simpl; [|reflexivity].
  destruct (cv_convert cv out 0 None true w1) as [[u|e] w2]; simpl;
    rewrite <- ?app_assoc; simpl; [|reflexivity].
  destruct (cv_close cv w2) as [[u'|e] w3]; simpl;
    rewrite <- ?app_assoc; simpl; [|reflexivity].
  destruct (_post_process_docx out _) as [[u''|e] s4]; simpl; [|reflexivity].
  destruct (files (world s4) !! out); reflexivity.
Qed.

(** The whole call: the outcome of the try block, in the state the
    [finally] block leaves. *)
Lemma convert_eq (pdf_bytes : bytes) (s : State) :
  convert_pdf_bytes_to_docx pdf_bytes s
  = (fst (convert_body (pdf_path_of s) (out_path_of pdf_bytes s)
                       (before_try pdf_bytes s)),
     snd (cleanup [pdf_path_of s; out_path_of pdf_bytes s]
                  (after_try pdf_bytes s))).
Proof.
  unfold convert_pdf_bytes_to_docx, after_try, out_path_of, before_try,
    pdf_path_of.
  unfold bind at 1 2. unfold NamedTemporaryFile_write at 1. unfold mktemp at 1.
  cbn [world trace]. unfold try_finally.
  unfold bind, NamedTemporaryFile_write, mktemp. cbn [snd world trace].
  destruct (convert_body _ _ _) as [r s1]. cbn [fst snd].
  pose proof (cleanup_total
    [(tmp_stem (world s) ++ ".pdf")%string;
     (tmp_stem (mkWorld (<[(tmp_stem (world s) ++ ".pdf")%string := pdf_bytes]>
                           (files (world s))) (locked (world s))) ++ ".docx")%string]
    s1) as Ht.
  destruct (cleanup _ s1) as [[[]|e] s2]; simpl in Ht; [reflexivity|discriminate].
Qed.


Lemma before_try_eq (pdf_bytes : bytes) (s : State) :
  before_try pdf_bytes s
  = mkState (mkWorld (<[pdf_path_of s := pdf_bytes]> (files (world s)))
                     (locked (world s)))
            (trace s ++ [EvTempWrite (pdf_path_of s) pdf_bytes;
                         EvMktemp (out_path_of pdf_bytes s)]).
Proof.
  unfold out_path_of, before_try, pdf_path_of, bind, NamedTemporaryFile_write,
    mktemp.
  cbn [snd world trace]. rewrite <- app_assoc. reflexivity.
Qed.

End PipelineFacts.

Section PipelineClaims.
Context `{Libs : Libraries}.

(** C4, as amended. On every exit of the try block the cleanup runs over
    both temporary paths and raises nothing, so the call ends as the try
    block did; afterwards each of the two files is absent unless the
    operating system refused its removal, a refusal being swallowed; a
    path with no file is passed over with the world unchanged. *)
Theorem convert_cleanup (pdf_bytes : bytes) (s : State) :
  let rs := convert_pdf_bytes_to_docx pdf_bytes s in
  let w' := world (snd rs) in
  fst rs = fst (convert_body (pdf_path_of s) (out_path_of pdf_bytes s)
                             (before_try pdf_bytes s)) /\
  (forall p, p = pdf_path_of s \/ p = out_path_of pdf_bytes s ->
     p ∉ locked w' -> files w' !! p = None) /\
  (forall ps st, fst (cleanup ps st) = Ok tt) /\
  (forall p st, files (world st) !! p = None ->
     world (snd (cleanup [p] st)) = world st).
Proof.
  intros rs w'. subst w' rs. rewrite convert_eq. cbn [fst snd].
  split; [reflexivity|]. split; [|split].
  - rewrite cleanup_two. cbn [snd world].
    set (w := world (after_try pdf_bytes s)).
    intros p Hp Hl. rewrite !removed_locked in Hl.
    destruct Hp as [-> | ->].
    + apply removed_absent, removed_gone; [apply suffixed_not_empty|exact Hl].
    + apply removed_gone; [apply suffixed_not_empty|].
      rewrite removed_locked. exact Hl.
  - apply cleanup_total.
  - intros p st Hnone. rewrite cleanup_cons. cbn [cleanup snd world].
    unfold ret. cbn [snd world]. unfold removed. rewrite Hnone.
    rewrite (bool_decide_eq_false_2 (is_Some None)) by (intros [? ?]; discriminate).
    rewrite andb_false_r. reflexivity.
Qed.



(** C9. An exception raised by the converter, when it is opened, when it
    converts or when it is closed, is not caught: the call raises that
    very exception and returns no result. *)
Theorem convert_propagates_converter_failure (pdf_bytes : bytes) (s : State)
    (e : exc) :
  let pdf := pdf_path_of s in
  let out := out_path_of pdf_bytes s in
  let w0 := world (before_try pdf_bytes s) in
  (fst (Converter pdf w0) = Raise e
   \/ (exists cv w1, Converter pdf w0 = (Ok cv, w1) /\
         fst (cv_convert cv out 0 None true w1) = Raise e)
   \/ (exists cv w1 w2, Converter pdf w0 = (Ok cv, w1) /\
         cv_convert cv out 0 None true w1 = (Ok tt, w2) /\
         fst (cv_close cv w2) = Raise e)) ->
  fst (convert_pdf_bytes_to_docx pdf_bytes s) = Raise e /\
  forall r, fst (convert_pdf_bytes_to_docx pdf_bytes s) <> Ok r.
Proof.
  intros pdf out w0 H.
  assert (fst (convert_pdf_bytes_to_docx pdf_bytes s) = Raise e) as Hr.
  { rewrite convert_eq. cbn [fst]. rewrite convert_body_eq.
    fold pdf out w0.
    destruct H as [H | [(cv & w1 & Ho & H) | (cv & w1 & w2 & Ho & Hc & H)]].
    - destruct (Converter pdf w0) as [r w1]. simpl in H. subst r. reflexivity.
    - rewrite Ho.
      destruct (cv_convert cv out 0 None true w1) as [r w2].
      simpl in H. subst r. reflexivity.
    - rewrite Ho, Hc.
      destruct (cv_close cv w2) as [r w3]. simpl in H. subst r. reflexivity. }
  split; [exact Hr|]. intros r. rewrite Hr. discriminate.
Qed.

End PipelineClaims.

(** ** The claims on scripted runs *)

(** C1, on the source. A [ValueError] raised by [doc.save] is not
    suppressed: the handler of the save names [OSError] only, where the
    handler of the open beside it names both classes, so the validation
    pass raises it instead of returning. And when [doc.save] raises an
    [OSError] after it has emptied the file, the pass returns with the
    output file changed, not as it was. *)
Theorem post_process_save_ValueError_escapes :
  (is_ValueError ValueError = true /\
   fst (doc_save (Libraries := scripted (save_raises ValueError))
                 (parsed quiet []) "/tmp/tmpk3.docx" (world boot))
   = Raise ValueError /\
   fst (_post_process_docx (Libs := scripted (save_raises ValueError))
                           "/tmp/tmpk3.docx" boot)
   = Raise ValueError) /\
  (files (world (with_output "/tmp/tmpk3.docx")) !! "/tmp/tmpk3.docx"%string
   = Some (produced quiet) /\
   fst (_post_process_docx (Libs := truncating_save)
                           "/tmp/tmpk3.docx" (with_output "/tmp/tmpk3.docx"))
   = Ok tt /\
   files (world (snd (_post_process_docx (Libs := truncating_save)
                        "/tmp/tmpk3.docx" (with_output "/tmp/tmpk3.docx"))))
     !! "/tmp/tmpk3.docx"%string
   = Some []).
Proof. repeat split; vm_compute; reflexivity. Qed.

Lemma convert_cleanup_witness :
  files (world (snd (convert_pdf_bytes_to_docx (Libs := scripted quiet)
                                               [Byte.x25] boot)))
    !! "/tmp/tmpk3.docx"%string = None.
Proof.
  destruct (convert_cleanup (Libs := scripted quiet) [Byte.x25] boot)
    as (_ & H & _).
  apply H.
  - right. reflexivity.
  - refine (bool_decide_unpack _ _). vm_compute. exact I.
Defined.

(** C4, as stated, fails: the converter holds the input file open and
    [cv.convert] raises, so [cv.close()] is skipped, the removal of the
    input file is refused, the refusal is swallowed, and the file is
    still there when the call has raised. *)
Lemma convert_leaves_locked_input :
  pdf_path_of (Libs := scripted (convert_raises_holding RuntimeError)) boot
  = "/tmp/tmpk3.pdf"%string /\
  fst (convert_pdf_bytes_to_docx
         (Libs := scripted (convert_raises_holding RuntimeError))
         [Byte.x25] boot)
  = Raise RuntimeError /\
  files (world (snd (convert_pdf_bytes_to_docx
                       (Libs := scripted (convert_raises_holding RuntimeError))
                       [Byte.x25] boot)))
    !! "/tmp/tmpk3.pdf"%string = Some [Byte.x25].
Proof. repeat split; vm_compute; reflexivity. Qed.




Lemma convert_propagates_converter_failure_witness :
  fst (convert_pdf_bytes_to_docx
         (Libs := scripted (convert_raises_holding RuntimeError))
         [Byte.x25] boot)
  = Raise RuntimeError.
Proof.
  apply (convert_propagates_converter_failure
           (Libs := scripted (convert_raises_holding RuntimeError))
           [Byte.x25] boot RuntimeError).
  right. left. eexists _, _. split; reflexivity.
Defined.

(** * Further properties of the string operations *)

Section StripFacts.

Lemma lstrip_decompose (s : str) :
  exists a, s = a ++ lstrip s /\ blank a = true.
Proof.
  induction s as [|c s (a & Hs & Ha)]; [exists []; split; reflexivity|].
  simpl. destruct (isspace c) eqn:E.
  - exists (c :: a). simpl. rewrite E, Ha. split; [congruence|reflexivity].
  - exists []. split; reflexivity.
Qed.

Lemma rstrip_decompose (s : str) :
  exists b, s = rstrip s ++ b /\ blank b = true.
Proof.
  destruct (lstrip_decompose (rev s)) as (a & Hs & Ha).
  exists (rev a). unfold rstrip. split.
  - rewrite <- rev_app_distr, <- Hs, rev_involutive. reflexivity.
  - rewrite blank_rev. exact Ha.
Qed.

Lemma lstrip_fixed (x : str) :
  (forall c t, x = c :: t -> isspace c = false) -> lstrip x = x.
Proof.
  destruct x as [|c t]; [reflexivity|].
  intros H. simpl. rewrite (H c t eq_refl). reflexivity.
Qed.

Lemma lstrip_blank_app (a u : str) :
  blank a = true -> lstrip (a ++ u) = lstrip u.
Proof.
  induction a as [|c a IH]; [reflexivity|]. simpl.
  destruct (isspace c); [exact IH|discriminate].
Qed.

Lemma rstrip_app_blank (u b : str) :
  blank b = true -> rstrip (u ++ b) = rstrip u.
Proof.
  intros Hb. unfold rstrip. rewrite rev_app_distr.
  rewrite lstrip_blank_app by (rewrite blank_rev; exact Hb). reflexivity.
Qed.

Lemma lstrip_app_not_blank (s b : str) :
  blank s = false -> lstrip (s ++ b) = lstrip s ++ b.
Proof.
  induction s as [|c s IH]; [discriminate|]. simpl.
  destruct (isspace c); [exact IH|reflexivity].
Qed.

Lemma strip_first (s : str) (c : N) (t : str) :
  strip s = c :: t -> isspace c = false.
Proof.
  unfold strip. intros H.
  destruct (rstrip_decompose (lstrip s)) as (b & Hb & _).
  rewrite H in Hb. simpl in Hb.
  apply lstrip_head in Hb. exact Hb.
Qed.

Lemma strip_last (s : str) (c : N) (t : str) :
  rev (strip s) = c :: t -> isspace c = false.
Proof.
  unfold strip, rstrip. rewrite rev_involutive. apply lstrip_head.
Qed.

End StripFacts.

(** X1. [strip] only removes white space from the two ends: the string
    is a blank prefix, the stripped string and a blank suffix, and the
    stripped string neither starts nor ends with a white space
    character. *)
Theorem strip_decompose (s : str) :
  (exists a b, s = a ++ strip s ++ b /\ blank a = true /\ blank b = true) /\
  (forall c t, strip s = c :: t -> isspace c = false) /\
  (forall t c, strip s = t ++ [c] -> isspace c = false).
Proof.
  split; [|split].
  - destruct (lstrip_decompose s) as (a & Hs & Ha).
    destruct (rstrip_decompose (lstrip s)) as (b & Hb & Hbb).
    exists a, b. split; [|split; assumption].
    rewrite Hs at 1. rewrite Hb at 1. reflexivity.
  - apply strip_first.
  - intros t c H. apply (strip_last s c (rev t)).
    rewrite H, rev_app_distr. reflexivity.
Qed.

(** X2. Stripping twice is stripping once. *)
Theorem strip_idempotent (s : str) : strip (strip s) = strip s.
Proof.
  unfold strip at 1.
  rewrite (lstrip_fixed (strip s)) by apply strip_first.
  unfold rstrip.
  rewrite (lstrip_fixed (rev (strip s))) by apply strip_last.
  apply rev_involutive.
Qed.

(** X3. White space added around a string does not change what [strip]
    returns. *)
Theorem strip_padding (a s b : str) :
  blank a = true -> blank b = true -> strip (a ++ s ++ b) = strip s.
Proof.
  intros Ha Hb. unfold strip. rewrite lstrip_blank_app by exact Ha.
  destruct (blank s) eqn:Hs.
  - rewrite lstrip_blank_app by exact Hs.
    apply lstrip_nil_blank in Hb. apply lstrip_nil_blank in Hs.
    rewrite Hb, Hs. reflexivity.
  - rewrite lstrip_app_not_blank by exact Hs.
    apply rstrip_app_blank. exact Hb.
Qed.

Lemma strip_padding_witness :
  strip (lit "  " ++ lit "a b" ++ lit " ") = strip (lit "a b").
Proof. apply strip_padding; reflexivity. Defined.

Lemma strip_decompose_witness : isspace 97%N = false.
Proof.
  destruct (strip_decompose (lit " ab ")) as (_ & H & _).
  apply (H 97%N [98%N]). reflexivity.
Defined.

(** * The preview and the paragraph texts *)

Section TrimmedFacts.

Lemma text_or_empty_raw (p : Paragraph) : text_or_empty p = raw_text p.
Proof.
  unfold text_or_empty, raw_text. destruct (text p) as [[|c s]|]; reflexivity.
Qed.

Lemma strip_is_trim (s : str) : is_trim_of (strip s) s.
Proof.
  split; [|split].
  - destruct (lstrip_decompose s) as (a & Hs & Ha).
    destruct (rstrip_decompose (lstrip s)) as (b & Hb & Hbb).
    exists a, b. split; [|split; assumption].
    rewrite Hs at 1. rewrite Hb at 1. reflexivity.
  - apply strip_first.
  - intros u c H. apply (strip_last s c (rev u)).
    rewrite H, rev_app_distr. reflexivity.
Qed.

(** The texts the loop keeps are the trimmed texts of the paragraphs that
    are not blank. *)
Lemma kept_nonblank (ps : list Paragraph) :
  kept ps = List.map (fun p => strip (raw_text p)) (nonblank_paragraphs ps).
Proof.
  induction ps as [|p ps IH]; [reflexivity|].
  rewrite kept_cons, truthy_strip, text_or_empty_raw.
  unfold nonblank_paragraphs in *. cbn [List.filter].
  destruct (blank (raw_text p)); cbn [negb List.map]; rewrite IH; reflexivity.
Qed.

Lemma nonblank_all (ps : list Paragraph) :
  Forall (fun p => blank (raw_text p) = false) (nonblank_paragraphs ps).
Proof.
  unfold nonblank_paragraphs.
  induction ps as [|p ps IH]; [constructor|]. cbn [List.filter].
  destruct (blank (raw_text p)) eqn:B; cbn [negb];
    [exact IH|constructor; assumption].
Qed.

Lemma nonblank_sublist (ps : list Paragraph) :
  sublist (nonblank_paragraphs ps) ps.
Proof.
  unfold nonblank_paragraphs.
  induction ps as [|p ps IH]; [constructor|]. cbn [List.filter].
  destruct (negb (blank (raw_text p))); constructor; exact IH.
Qed.

Lemma trimmed_lines (l : list Paragraph) :
  Forall (fun p => blank (raw_text p) = false) l ->
  Forall2 (fun t p => is_trim_of t (raw_text p) /\ t <> [])
          (List.map (fun p => strip (raw_text p)) l) l.
Proof.
  induction 1 as [|p l Hp _ IH]; cbn [List.map]; constructor; [|exact IH].
  split; [apply strip_is_trim|].
  intros Hn. apply strip_nil_blank in Hn. congruence.
Qed.

End TrimmedFacts.

Section PreviewOrder.
Context `{Libs : Libraries}.

(** C5, as amended. With a positive cap the preview is built from the
    paragraphs in document order: the paragraphs kept are the first
    [max_paragraphs] whose text is not blank, each gives one entry, its
    text without the white space at its two ends, never empty, and the
    entries are joined by line feeds; the loop stops once the cap is
    reached, so that what follows the paragraph that reached it has no
    influence. The entries are the lines of the returned string when
    none of them holds a line feed of its own. *)
Theorem docx_text_preview_filters_in_order (b : bytes) (doc : Doc) (cap : Z) :
  Document_of_bytes b = Ok doc ->
  1 <= cap ->
  let ps := paragraphs doc in
  let lines := preview_loop ps cap [] in
  let chosen := take (Z.to_nat cap) (nonblank_paragraphs ps) in
  docx_text_preview b cap = Ok (join [LF] lines) /\
  Forall2 (fun t p => is_trim_of t (raw_text p) /\ t <> []) lines chosen /\
  sublist chosen ps /\
  lines = preview_spec ps cap /\
  (forall ps1 ps2, ps = ps1 ++ ps2 ->
     cap <= Z.of_nat (length (nonblank_paragraphs ps1)) ->
     lines = preview_loop ps1 cap []) /\
  (lines <> [] -> Forall one_line lines ->
   split_lines (join [LF] lines) = lines).
Proof.
  intros E Hcap ps lines chosen.
  assert (lines = preview_spec ps cap) as Hspec
    by (apply preview_loop_refines, Hcap).
  split; [unfold docx_text_preview, preview_of; rewrite E; reflexivity|].
  split; [|split; [|split; [exact Hspec|split]]].
  - rewrite Hspec. unfold preview_spec, chosen.
    rewrite kept_nonblank, firstn_map.
    apply trimmed_lines, Forall_take, nonblank_all.
  - transitivity (nonblank_paragraphs ps);
      [apply sublist_take|apply nonblank_sublist].
  - intros ps1 ps2 Hps Hreach. rewrite Hspec, Hps.
    rewrite preview_loop_refines by exact Hcap. unfold preview_spec.
    rewrite kept_app. apply take_app_le.
    rewrite kept_nonblank, length_map. lia.
  - rewrite Hspec. unfold preview_spec.
    destruct (take (Z.to_nat cap) (kept ps)) as [|x l]; [congruence|].
    intros _ Hone. unfold split_lines.
    rewrite split_lines_aux_join by exact Hone. reflexivity.
Qed.

End PreviewOrder.

Lemma docx_text_preview_filters_in_order_witness :
  docx_text_preview (Libs := scripted (reading doc_padded [])) [] 2
  = Ok (lit "A" ++ [LF] ++ lit "B").
Proof.
  destruct (docx_text_preview_filters_in_order
              (Libs := scripted (reading doc_padded []))
              [] doc_padded 2 eq_refl ltac:(lia))
    as (H & _).
  exact H.
Defined.

(** C5, as stated, fails: a paragraph whose text holds a blank line
    between two line breaks is kept, and the returned string then has a
    line of white space only. *)
Lemma docx_text_preview_blank_line_inside :
  exists s,
    docx_text_preview (Libs := scripted (reading doc_blank_line [])) [] 1 = Ok s
    /\ lit " " ∈ split_lines s
    /\ blank (lit " ") = true.
Proof.
  exists (lit "A" ++ [LF] ++ lit " " ++ [LF] ++ lit "B").
  split; [reflexivity|]. split; [|reflexivity].
  refine (bool_decide_unpack _ _). vm_compute. exact I.
Qed.

(** * Further properties of the preview extractor *)

Section PreviewFacts.

Lemma kept_truthy (ps : list Paragraph) :
  Forall (fun t => truthy t = true) (kept ps).
Proof.
  unfold kept. induction (trimmed ps) as [|t ts IH]; simpl; [constructor|].
  destruct (truthy t) eqn:T; [constructor; assumption|exact IH].
Qed.

Lemma join_nil_iff (sep : str) (l : list str) :
  Forall (fun t => truthy t = true) l -> join sep l = [] <-> l = [].
Proof.
  intros H. split; [|intros ->; reflexivity].
  destruct l as [|x l]; [reflexivity|].
  inversion H as [|? ? Hx _]; subst.
  destruct x as [|c x]; [discriminate|].
  destruct l; simpl; discriminate.
Qed.

Lemma kept_nil_iff (ps : list Paragraph) :
  kept ps = [] <-> Forall (fun p => blank (text_or_empty p) = true) ps.
Proof.
  induction ps as [|p ps IH]; [split; [constructor|reflexivity]|].
  rewrite kept_cons, truthy_strip.
  destruct (blank (text_or_empty p)) eqn:B; simpl.
  - rewrite IH. split; [intros H; constructor; assumption|].
    intros H. inversion H; assumption.
  - split; [discriminate|]. intros H. inversion H; congruence.
Qed.

Lemma kept_blank (qs : list Paragraph) :
  Forall (fun p => blank (text_or_empty p) = true) qs -> kept qs = [].
Proof. apply kept_nil_iff. Qed.

End PreviewFacts.

(** X4. With a cap of at least one the preview is the empty string
    exactly when every paragraph of the document is blank. *)
Theorem docx_text_preview_empty_iff `{Libraries} (b : bytes) (doc : Doc)
    (cap : Z) :
  Document_of_bytes b = Ok doc ->
  1 <= cap ->
  docx_text_preview b cap = Ok (lit "")
  <-> Forall (fun p => blank (text_or_empty p) = true) (paragraphs doc).
Proof.
  intros E Hcap. unfold docx_text_preview, preview_of. rewrite E.
  rewrite preview_loop_refines by exact Hcap. unfold preview_spec.
  rewrite <- kept_nil_iff. split.
  - intros [= Hj]. apply join_nil_iff in Hj.
    + apply take_nil_inv in Hj as [Hz|Hk]; [lia|exact Hk].
    + apply Forall_take, kept_truthy.
  - intros ->. rewrite take_nil. reflexivity.
Qed.

(** X5. A smaller cap gives the first lines of what a larger cap gives,
    both at least one. *)
Theorem preview_loop_cap_monotone (ps : list Paragraph) (m n : Z) :
  1 <= m -> m <= n ->
  preview_loop ps m [] = take (Z.to_nat m) (preview_loop ps n []).
Proof.
  intros Hm Hn. rewrite !preview_loop_refines by lia. unfold preview_spec.
  rewrite take_take. f_equal. lia.
Qed.

(** X6. With a cap of at least one, blank paragraphs anywhere in the
    document do not change the preview. *)
Theorem preview_of_skips_blank (ps1 qs ps2 : list Paragraph) (cap : Z) :
  1 <= cap ->
  Forall (fun p => blank (text_or_empty p) = true) qs ->
  preview_of (ps1 ++ qs ++ ps2) cap = preview_of (ps1 ++ ps2) cap.
Proof.
  intros Hcap Hq. unfold preview_of.
  rewrite !preview_loop_refines by exact Hcap. unfold preview_spec.
  rewrite !kept_app, (kept_blank qs Hq). reflexivity.
Qed.

Lemma docx_text_preview_empty_iff_witness :
  docx_text_preview (Libs := scripted (reading [para " "; para ""] [])) [] 20
  = Ok (lit "").
Proof.
  apply (docx_text_preview_empty_iff
           (H := scripted (reading [para " "; para ""] []))
           [] [para " "; para ""] 20 eq_refl ltac:(lia)).
  repeat constructor.
Defined.

Lemma preview_loop_cap_monotone_witness :
  preview_loop doc_a_blank_b_c 2 [] = take 2 (preview_loop doc_a_blank_b_c 5 []).
Proof. apply (preview_loop_cap_monotone doc_a_blank_b_c 2 5); lia. Defined.

Lemma preview_of_skips_blank_witness :
  preview_of ([para "A"] ++ [para " "; para ""] ++ [para "B"]) 3
  = preview_of ([para "A"] ++ [para "B"]) 3.
Proof.
  apply (preview_of_skips_blank [para "A"] [para " "; para ""] [para "B"] 3).
  - lia.
  - repeat constructor.
Defined.

(** * Further properties of the conversion pipeline *)

Section CleanupFacts.
Context `{Libs : Libraries}.

Lemma cleanup_world (ps : list string) (s : State) :
  world (snd (cleanup ps s)) = swept ps (world s).
Proof.
  revert s. induction ps as [|p ps IH]; intros s; [reflexivity|].
  rewrite cleanup_cons, IH. reflexivity.
Qed.

Lemma removed_other (p q : string) (w : World) :
  p <> q -> files (removed p w) !! q = files w !! q.
Proof.
  intros Hne. unfold removed. destruct (_ && _); [|reflexivity].
  simpl. apply lookup_delete_ne. exact Hne.
Qed.

Lemma removed_noop (p : string) (w : World) :
  settled p w -> removed p w = w.
Proof.
  unfold settled, removed. intros [-> | [Hn | Hl]].
  - reflexivity.
  - rewrite Hn.
    rewrite (bool_decide_eq_false_2 (is_Some None)) by (intros [? ?]; discriminate).
    rewrite andb_false_r. reflexivity.
  - rewrite (bool_decide_eq_true_2 _ Hl). simpl.
    rewrite andb_false_r. reflexivity.
Qed.

Lemma removed_settles (p : string) (w : World) : settled p (removed p w).
Proof.
  unfold settled.
  destruct (decide (p = ""%string)) as [->|Hp]; [left; reflexivity|].
  destruct (decide (p ∈ locked w)) as [Hl|Hl].
  - right. right. rewrite removed_locked. exact Hl.
  - right. left. apply removed_gone; assumption.
Qed.

Lemma removed_keeps_settled (p q : string) (w : World) :
  settled q w -> settled q (removed p w).
Proof.
  unfold settled. intros [-> | [Hn | Hl]].
  - left. reflexivity.
  - right. left. apply removed_absent. exact Hn.
  - right. right. rewrite removed_locked. exact Hl.
Qed.

Lemma swept_keeps_settled (ps : list string) (q : string) (w : World) :
  settled q w -> settled q (swept ps w).
Proof.
  revert w. induction ps as [|p ps IH]; intros w H; [exact H|].
  change (swept (p :: ps) w) with (swept ps (removed p w)).
  apply IH, removed_keeps_settled, H.
Qed.

Lemma swept_settles (ps : list string) (w : World) :
  Forall (fun p => settled p (swept ps w)) ps.
Proof.
  revert w. induction ps as [|p ps IH]; intros w; constructor;
    change (swept (p :: ps) w) with (swept ps (removed p w)).
  - apply swept_keeps_settled, removed_settles.
  - apply IH.
Qed.

Lemma swept_noop (ps : list string) (w : World) :
  Forall (fun p => settled p w) ps -> swept ps w = w.
Proof.
  induction ps as [|p ps IH]; intros H; [reflexivity|].
  inversion H as [|? ? Hp Hps]; subst.
  cbn [swept foldl]. rewrite (removed_noop p w Hp). apply IH, Hps.
Qed.

Lemma last_char_app (a : string) (c : ascii) (b : string) :
  last_char (a ++ String c b) = last_char (String c b).
Proof.
  induction a as [|x a IH]; [reflexivity|].
  change (last_char (String x (a ++ String c b)) = last_char (String c b)).
  rewrite <- IH. destruct a; reflexivity.
Qed.

End CleanupFacts.

Section PipelineExtras.
Context `{Libs : Libraries}.

(** X7. The validation pass raises only what one of its two library
    calls raised, and never an [OSError]; what the open raised and the
    pass lets through is no [ValueError] either. *)
Theorem post_process_raises_only_unhandled (p : string) (s : State) (e : exc) :
  fst (_post_process_docx p s) = Raise e ->
  is_OSError e = false /\
  ((Document p (world s) = Raise e /\ is_ValueError e = false)
   \/ exists d w', Document p (world s) = Ok d /\
                   doc_save d p (world s) = (Raise e, w')).
Proof.
  rewrite post_process_eq.
  unfold catches_OSError_or_ValueError, catches_OSError.
  destruct (Document p (world s)) as [d|e0].
  - destruct (doc_save d p (world s)) as [[u|e1] w'] eqn:Hs; [discriminate|].
    cbn [fst]. destruct (is_OSError e1) eqn:Ho; [discriminate|].
    intros [= ->]. split; [exact Ho|]. right. eauto.
  - cbn [fst]. destruct (is_OSError e0) eqn:Ho; [discriminate|].
    destruct (is_ValueError e0) eqn:Hv; [discriminate|]. simpl.
    intros [= ->]. split; [exact Ho|]. left. split; [reflexivity|exact Hv].
Qed.

(** X8. The cleanup loop touches nothing but the files it is given: any
    other path keeps its content, no file appears, and what the system
    refuses to remove stays refused. *)
Theorem cleanup_frame (ps : list string) (s : State) :
  let w' := world (snd (cleanup ps s)) in
  (forall q, q ∉ ps -> files w' !! q = files (world s) !! q) /\
  (forall q, files (world s) !! q = None -> files w' !! q = None) /\
  locked w' = locked (world s).
Proof.
  cbn zeta. rewrite cleanup_world. generalize (world s) as w.
  induction ps as [|p ps IH]; intros w; [repeat split; auto|].
  change (swept (p :: ps) w) with (swept ps (removed p w)). destruct (IH (removed p w)) as (Ho & Hn & Hl).
  split; [|split].
  - intros q Hq. apply not_elem_of_cons in Hq as [Hne Hq].
    rewrite (Ho q Hq). apply removed_other. congruence.
  - intros q Hq. apply Hn, removed_absent, Hq.
  - rewrite Hl. apply removed_locked.
Qed.

(** X9. Cleaning up again changes nothing: afterwards every path of the
    loop is empty, without a file, or refused. *)
Theorem cleanup_idempotent (ps : list string) (s : State) :
  let s' := snd (cleanup ps s) in
  world (snd (cleanup ps s')) = world s' /\
  Forall (fun p => settled p (world s')) ps.
Proof.
  cbn zeta. rewrite !cleanup_world. split.
  - apply swept_noop, swept_settles.
  - apply swept_settles.
Qed.

(** X10. The two temporary paths of a call are never empty and never
    the same path. *)
Theorem temp_paths_distinct (pdf_bytes : bytes) (s : State) :
  pdf_path_of s <> ""%string /\
  out_path_of pdf_bytes s <> ""%string /\
  pdf_path_of s <> out_path_of pdf_bytes s.
Proof.
  unfold pdf_path_of, out_path_of.
  split; [apply suffixed_not_empty|]. split; [apply suffixed_not_empty|].
  intros H. apply (f_equal last_char) in H.
  rewrite !last_char_app in H. discriminate.
Qed.

End PipelineExtras.

Lemma post_process_raises_only_unhandled_witness :
  is_OSError RuntimeError = false.
Proof.
  destruct (post_process_raises_only_unhandled
              (Libs := scripted (save_raises RuntimeError))
              "/tmp/tmpk3.docx" boot RuntimeError eq_refl) as [H _].
  exact H.
Defined.

Lemma cleanup_frame_witness :
  files (world (snd (cleanup ["/tmp/a"%string]
      (mkState (mkWorld {["/tmp/a"%string := []; "/tmp/b"%string := [Byte.x01]]} ∅) []))))
    !! "/tmp/b"%string
  = Some [Byte.x01].
Proof.
  destruct (cleanup_frame ["/tmp/a"%string]
      (mkState (mkWorld {["/tmp/a"%string := []; "/tmp/b"%string := [Byte.x01]]} ∅) []))
    as (H & _).
  rewrite H; [reflexivity|].
  refine (bool_decide_unpack _ _). vm_compute. exact I.
Defined.

Section TraceFacts.
Context `{Libs : Libraries}.



End TraceFacts.

Section PipelineExtras2.
Context `{Libs : Libraries}.


(** X12. A suppressed failure of the validation pass does not cost the
    result: when the open fails with a handled error the call returns the
    bytes the converter left at the output path, and when the save fails
    with an [OSError] it returns the bytes the failed save left there. *)
Theorem convert_survives_validation_failure (pdf_bytes : bytes) (s : State)
    (cv : Cv) (w1 w2 w3 : World) :
  let pdf := pdf_path_of s in
  let out := out_path_of pdf_bytes s in
  Converter pdf (world (before_try pdf_bytes s)) = (Ok cv, w1) ->
  cv_convert cv out 0 None true w1 = (Ok tt, w2) ->
  cv_close cv w2 = (Ok tt, w3) ->
  (forall e data,
     Document out w3 = Raise e ->
     is_OSError e || is_ValueError e = true ->
     files w3 !! out = Some data ->
     fst (convert_pdf_bytes_to_docx pdf_bytes s) = Ok (data, STATUS)) /\
  (forall d e w4 data,
     Document out w3 = Ok d ->
     doc_save d out w3 = (Raise e, w4) ->
     is_OSError e = true ->
     files w4 !! out = Some data ->
     fst (convert_pdf_bytes_to_docx pdf_bytes s) = Ok (data, STATUS)).
Proof.
  intros pdf out Ho Hc Hcl. subst pdf out.
  rewrite convert_eq. cbn [fst].
  rewrite convert_body_eq, Ho, Hc, Hcl, post_process_eq. cbn [world trace].
  unfold catches_OSError_or_ValueError, catches_OSError. split.
  - intros e data Hd He Hf. rewrite Hd, He. cbn [fst world]. rewrite Hf.
    reflexivity.
  - intros d e w4 data Hd Hs He Hf. rewrite Hd, Hs, He. cbn [fst world].
    rewrite Hf. reflexivity.
Qed.

(** X13. Outside the library calls, a call writes and removes nothing
    but its two temporary files: any other path is the same before the
    try block as at the start, and the same at the end as when the try
    block was left; the set of refused removals is likewise kept. *)
Theorem convert_footprint (pdf_bytes : bytes) (s : State) (q : string) :
  q <> pdf_path_of s ->
  q <> out_path_of pdf_bytes s ->
  files (world (before_try pdf_bytes s)) !! q = files (world s) !! q /\
  files (world (snd (convert_pdf_bytes_to_docx pdf_bytes s))) !! q
  = files (world (after_try pdf_bytes s)) !! q /\
  locked (world (before_try pdf_bytes s)) = locked (world s) /\
  locked (world (snd (convert_pdf_bytes_to_docx pdf_bytes s)))
  = locked (world (after_try pdf_bytes s)).
Proof.
  intros Hp Ho. rewrite convert_eq, before_try_eq. cbn [snd world files locked].
  rewrite cleanup_two. cbn [snd world].
  split; [|split; [|split]].
  - apply lookup_insert_ne. congruence.
  - rewrite !removed_other by congruence. reflexivity.
  - reflexivity.
  - rewrite !removed_locked. reflexivity.
Qed.

End PipelineExtras2.


Lemma convert_survives_validation_failure_witness :
  fst (convert_pdf_bytes_to_docx (Libs := scripted (open_raises ValueError))
                                 [Byte.x25] boot)
  = Ok (produced quiet, STATUS).
Proof.
  destruct (convert_survives_validation_failure
              (Libs := scripted (open_raises ValueError)) [Byte.x25] boot
              "/tmp/tmpk3.pdf"%string
              (world (before_try (Libs := scripted (open_raises ValueError))
                                 [Byte.x25] boot))
              (write_file "/tmp/tmpk3.docx" (produced quiet)
                 (world (before_try (Libs := scripted (open_raises ValueError))
                                    [Byte.x25] boot)))
              (mkWorld
                 (files (write_file "/tmp/tmpk3.docx" (produced quiet)
                    (world (before_try (Libs := scripted (open_raises ValueError))
                                       [Byte.x25] boot))))
                 (locked (world (before_try (Libs := scripted (open_raises ValueError))
                                            [Byte.x25] boot))
                  ∖ {["/tmp/tmpk3.pdf"%string]}))
              eq_refl eq_refl eq_refl) as (H & _).
  apply (H ValueError (produced quiet) eq_refl eq_refl).
  vm_compute. reflexivity.
Defined.

Lemma convert_footprint_witness :
  files (world (before_try (Libs := scripted quiet) [Byte.x25] boot))
    !! "/tmp/other"%string
  = files (world boot) !! "/tmp/other"%string.
Proof.
  destruct (convert_footprint (Libs := scripted quiet) [Byte.x25] boot
              "/tmp/other"%string) as (H & _).
  - vm_compute. discriminate.
  - vm_compute. discriminate.
  - exact H.
Defined.

(** * Properties of [os.path.splitext] as the shell uses it *)

Section SplitextFacts.

Lemma rfind_from_absent (s : str) (c : N) (i found : Z) :
  c ∉ s -> rfind_from i s c found = found.
Proof.
  revert i found. induction s as [|d s IH]; intros i found H; [reflexivity|].
  apply not_elem_of_cons in H as [Hd Hs]. simpl.
  destruct (N.eqb_spec d c) as [->|_]; [congruence|]. apply IH, Hs.
Qed.

Lemma rfind_from_last (a b : str) (c : N) (i found : Z) :
  c ∉ b -> rfind_from i (a ++ c :: b) c found = i + Z.of_nat (length a).
Proof.
  intros Hb. revert i found. induction a as [|d a IH]; intros i found; simpl.
  - rewrite N.eqb_refl, rfind_from_absent by exact Hb. lia.
  - rewrite IH. lia.
Qed.

Lemma rfind_from_spec (s : str) (c : N) (i found : Z) :
  ((c ∉ s) /\ (rfind_from i s c found = found))
  \/ (exists a b, s = a ++ c :: b /\ (c ∉ b)
                  /\ rfind_from i s c found = i + Z.of_nat (length a)).
Proof.
  revert i found. induction s as [|d s IH]; intros i found.
  - left. split; [apply not_elem_of_nil|reflexivity].
  - simpl.
    destruct (IH (i + 1) (if (d =? c)%N then i else found))
      as [[Hs Hr] | (a & b & -> & Hb & Hr)].
    + destruct (N.eqb_spec d c) as [->|Hne].
      * right. exists [], s. simpl. repeat split; [exact Hs|]. rewrite Hr. lia.
      * left. split; [|exact Hr].
        apply not_elem_of_cons. split; [congruence|exact Hs].
    + right. exists (d :: a), b. simpl. repeat split; [exact Hb|].
      rewrite Hr. lia.
Qed.

(** [rfind] finds the last occurrence, or answers [-1]. *)
Lemma rfind_spec (s : str) (c : N) :
  ((c ∉ s) /\ (rfind s c = -1))
  \/ (exists a b, s = a ++ c :: b /\ (c ∉ b)
                  /\ rfind s c = Z.of_nat (length a)).
Proof.
  unfold rfind.
  destruct (rfind_from_spec s c 0 (-1)) as [H | (a & b & Hs & Hb & Hr)].
  - left. exact H.
  - right. exists a, b. repeat split; [exact Hs|exact Hb|]. rewrite Hr. lia.
Qed.

(** Nothing found below [n] means nothing from [n] on. *)
Lemma rfind_lt_drop (s : str) (c : N) (n : nat) :
  rfind s c < Z.of_nat n -> c ∉ drop n s.
Proof.
  intros Hlt Hin.
  destruct (rfind_spec s c) as [[Hs _] | (a & b & -> & Hb & Hr)].
  - apply Hs. eapply subseteq_drop, Hin.
  - rewrite drop_app_ge in Hin by lia.
    destruct (n - length a)%nat as [|k] eqn:E; [lia|].
    simpl in Hin. apply Hb. eapply subseteq_drop, Hin.
Qed.

Lemma slice_one (p : str) (k : nat) (x : N) :
  p !! k = Some x -> slice p (Z.of_nat k) (Z.of_nat k + 1) = [x].
Proof.
  intros H. unfold slice.
  replace (Z.to_nat (Z.of_nat k + 1 - Z.of_nat k)) with 1%nat by lia.
  rewrite Nat2Z.id.
  assert (drop k p !! 0%nat = Some x) as Hd
    by (rewrite lookup_drop, Nat.add_0_r; exact H).
  destruct (drop k p) as [|y t]; [discriminate|].
  simpl in Hd. injection Hd as ->. reflexivity.
Qed.

(** The loop answers [true] when a character other than [extsep] stands
    within its reach. *)
Lemma splitext_scan_finds (fuel : nat) (p : str) (extsep : N) (f : nat)
    (d : Z) (k : nat) (x : N) :
  (f <= k)%nat -> Z.of_nat k < d -> (k - f < fuel)%nat ->
  p !! k = Some x -> x <> extsep ->
  splitext_scan fuel p extsep (Z.of_nat f) d = true.
Proof.
  revert f. induction fuel as [|fuel IH]; intros f Hfk Hkd Hfuel Hk Hx; [lia|].
  cbn [splitext_scan].
  destruct (Z.ltb_spec (Z.of_nat f) d); [|lia].
  case_bool_decide as Hs; [reflexivity|].
  destruct (decide (k = f)) as [->|Hne].
  - rewrite (slice_one p f x Hk) in Hs. congruence.
  - replace (Z.of_nat f + 1) with (Z.of_nat (S f)) by lia.
    apply IH; [lia|exact Hkd|lia|exact Hk|exact Hx].
Qed.

(** The loop answers [false] when it meets [extsep] only. *)
Lemma splitext_scan_only_dots (fuel : nat) (p : str) (extsep : N) (f : nat)
    (d : Z) :
  (forall k, (f <= k)%nat -> Z.of_nat k < d -> p !! k = Some extsep) ->
  splitext_scan fuel p extsep (Z.of_nat f) d = false.
Proof.
  revert f. induction fuel as [|fuel IH]; intros f H; [reflexivity|].
  cbn [splitext_scan].
  destruct (Z.ltb_spec (Z.of_nat f) d); [|reflexivity].
  rewrite (slice_one p f extsep) by (apply H; lia).
  rewrite bool_decide_eq_false_2 by (intros Hc; apply Hc; reflexivity).
  replace (Z.of_nat f + 1) with (Z.of_nat (S f)) by lia.
  apply IH. intros k Hk Hd. apply H; lia.
Qed.

End SplitextFacts.

Section SplitextClaims.

Lemma rfind_ge (s : str) (c : N) : -1 <= rfind s c.
Proof.
  destruct (rfind_spec s c) as [[_ ->] | (a & b & _ & _ & ->)]; lia.
Qed.

(** X14. [_splitext] cuts the path in two without losing a character;
    the extension is empty or starts at the last [extsep] of the path,
    and it holds no separator. *)
Theorem splitext_parts (p : str) (sep : N) (altsep : option N) (extsep : N) :
  let root := fst (_splitext p sep altsep extsep) in
  let ext := snd (_splitext p sep altsep extsep) in
  root ++ ext = p /\
  (ext = [] \/ exists e, ext = extsep :: e /\ (extsep ∉ e)) /\
  (sep ∉ ext) /\
  (forall a, altsep = Some a -> a ∉ ext).
Proof.
  cbn zeta. unfold _splitext.
  set (sepIndex := match altsep with
                   | Some a => Z.max (rfind p sep) (rfind p a)
                   | None => rfind p sep
                   end).
  assert (rfind p sep <= sepIndex) as Hsep
    by (subst sepIndex; destruct altsep; lia).
  assert (forall a, altsep = Some a -> rfind p a <= sepIndex) as Halt
    by (intros a ->; subst sepIndex; lia).
  destruct (_ && _) eqn:Hc; cbn [fst snd].
  - apply andb_true_iff in Hc as [Hgt _]. apply Z.gtb_lt in Hgt.
    pose proof (rfind_ge p sep) as Hge.
    destruct (rfind_spec p extsep) as [[_ Hr] | (a & e & Hp & He & Hr)]; [lia|].
    rewrite Hr in *. unfold slice.
    replace (Z.to_nat (Z.of_nat (length a) - 0)) with (length a) by lia.
    rewrite Nat2Z.id. change (Z.to_nat 0) with 0%nat. rewrite drop_0.
    split; [apply take_drop|].
    assert (drop (length a) p = extsep :: e) as Hd
      by (rewrite Hp; apply drop_app_length).
    split; [right; exists e; split; [exact Hd|exact He]|].
    split.
    + apply rfind_lt_drop. lia.
    + intros x Hx. apply rfind_lt_drop. specialize (Halt x Hx). lia.
  - rewrite app_nil_r. split; [reflexivity|]. split; [left; reflexivity|].
    split; [apply not_elem_of_nil|]. intros a _. apply not_elem_of_nil.
Qed.

(** A name made of a stem, a dot and an extension, with no separator
    anywhere, no further dot in the extension and a stem that is not made
    of dots only, splits into the stem and the dotted extension. *)
Lemma splitext_stem_ext (stem ext : str) (sep : N) (altsep : option N)
    (extsep : N) :
  sep ∉ stem ++ extsep :: ext ->
  (forall a, altsep = Some a -> a ∉ stem ++ extsep :: ext) ->
  extsep ∉ ext ->
  (exists c, c ∈ stem /\ c <> extsep) ->
  _splitext (stem ++ extsep :: ext) sep altsep extsep = (stem, extsep :: ext).
Proof.
  intros Hsep Halt Hext (c & Hc & Hne). unfold _splitext.
  assert (rfind (stem ++ extsep :: ext) sep = -1) as ->
    by (apply rfind_from_absent, Hsep).
  assert (match altsep with
          | Some a => Z.max (-1) (rfind (stem ++ extsep :: ext) a)
          | None => -1
          end = -1) as ->.
  { destruct altsep as [a|]; [|reflexivity].
    unfold rfind. rewrite rfind_from_absent by (apply Halt; reflexivity).
    reflexivity. }
  assert (rfind (stem ++ extsep :: ext) extsep = Z.of_nat (length stem)) as ->
    by (unfold rfind; rewrite rfind_from_last by exact Hext; lia).
  apply list_elem_of_lookup_1 in Hc as [k Hk].
  pose proof (lookup_lt_Some _ _ _ Hk) as Hlt.
  rewrite (proj2 (Z.gtb_lt _ _)) by lia.
  change (-1 + 1) with (Z.of_nat 0).
  assert ((stem ++ extsep :: ext) !! k = Some c) as Hpk
    by (rewrite lookup_app_l by exact Hlt; exact Hk).
  assert (splitext_scan (Z.to_nat (Z.of_nat (length stem) - Z.of_nat 0))
            (stem ++ extsep :: ext) extsep (Z.of_nat 0)
            (Z.of_nat (length stem)) = true) as ->
    by (apply (splitext_scan_finds _ _ _ _ _ k c);
        [lia|lia|lia|exact Hpk|exact Hne]).
  cbn [andb]. unfold slice.
  replace (Z.to_nat (Z.of_nat (length stem) - 0)) with (length stem) by lia.
  rewrite Nat2Z.id. change (Z.to_nat 0) with 0%nat. rewrite drop_0.
  rewrite take_app_length, drop_app_length. reflexivity.
Qed.

(** A name without a dot, or whose only dots are the ones it starts
    with, has no extension: it is returned whole. *)
Lemma splitext_no_extension (dots rest : str) (sep : N) (altsep : option N)
    (extsep : N) :
  Forall (fun c => c = extsep) dots ->
  extsep ∉ rest ->
  _splitext (dots ++ rest) sep altsep extsep = (dots ++ rest, []).
Proof.
  intros Hdots Hrest. unfold _splitext.
  set (p := dots ++ rest).
  set (sepIndex := match altsep with
                   | Some a => Z.max (rfind p sep) (rfind p a)
                   | None => rfind p sep
                   end).
  assert (-1 <= sepIndex) as Hge.
  { pose proof (rfind_ge p sep). subst sepIndex. destruct altsep; lia. }
  destruct (_ && _) eqn:Hc; [|reflexivity]. exfalso.
  apply andb_true_iff in Hc as [Hgt Hscan]. apply Z.gtb_lt in Hgt.
  destruct (decide (dots = [])) as [->|Hne].
  - subst p. simpl in Hgt. unfold rfind in Hgt.
    rewrite rfind_from_absent in Hgt by exact Hrest. lia.
  - destruct (exists_last Hne) as (d' & x & ->).
    apply Forall_app in Hdots as [Hd' Hx].
    apply (proj1 (Forall_singleton _ x)) in Hx. cbv beta in Hx. subst x.
    assert (p = d' ++ extsep :: rest) as Hp
      by (subst p; rewrite <- app_assoc; reflexivity).
    assert (rfind p extsep = Z.of_nat (length d')) as Hr
      by (rewrite Hp; unfold rfind; rewrite rfind_from_last by exact Hrest; lia).
    rewrite Hr in Hscan.
    replace (sepIndex + 1) with (Z.of_nat (Z.to_nat (sepIndex + 1))) in Hscan by lia.
    rewrite splitext_scan_only_dots in Hscan; [discriminate|].
    intros k _ Hk. rewrite Hp.
    transitivity (d' !! k); [apply lookup_app_l; lia|].
    destruct (lookup_lt_is_Some_2 d' k ltac:(lia)) as [y Hy].
    rewrite Hy. f_equal. exact (Forall_lookup_1 _ _ _ _ Hd' Hy).
Qed.

End SplitextClaims.

Lemma splitext_parts_witness :
  47%N ∉ snd (_splitext (lit "a/b.c") 47%N (Some 92%N) DOT).
Proof.
  destruct (splitext_parts (lit "a/b.c") 47%N (Some 92%N) DOT)
    as (_ & _ & H & _).
  exact H.
Defined.

(** * Properties of the interactive shell *)

Section ShellFacts.
Context `{Libs : Libraries}.
Variable os : Platform.

(** The second column's work, by the outcome of the conversion and of
    the preview. *)
Lemma main_convert_eq (up : UploadedFile) (ss : Session) :
  main_convert os up ss =
  match convert_pdf_bytes_to_docx (getvalue up) (machine ss) with
  | (Raise e, s') =>
      (Raise e,
       mkSession s' (screen ss ++ [EnterSpinner SPINNER_TEXT; ExitSpinner]))
  | (Ok res, s') =>
      match docx_text_preview (fst res) 20 with
      | Raise e =>
          (Raise e,
           mkSession s' (screen ss ++ drawn_before_preview (snd res)))
      | Ok preview =>
          (Ok tt,
           mkSession s'
             (screen ss ++ drawn_before_preview (snd res)
                ++ [if truthy preview then Code preview (lit "text")
                    else Info NO_TEXT;
                    Subheader DOWNLOAD_HEADING;
                    DownloadButton DOWNLOAD_LABEL (fst res)
                      (out_name_of os up) DOCX_MIME true DOWNLOAD_HELP]))
      end
  end.
Proof.
  unfold main_convert, drawn_before_preview.
  unfold ui_bind at 1. unfold within, run. cbn [machine screen].
  destruct (convert_pdf_bytes_to_docx (getvalue up) (machine ss)) as [[res|e] s'];
    cbn [machine screen]; rewrite <- ?app_assoc; cbn [app]; [|reflexivity].
  unfold ui_bind, show, eval. cbn [machine screen].
  destruct (docx_text_preview (fst res) 20) as [preview|e];
    rewrite <- ?app_assoc; cbn [app]; [|reflexivity].
  destruct (truthy preview); cbn [machine screen];
    rewrite <- ?app_assoc; cbn [app]; reflexivity.
Qed.

(** The whole script: the head of the page, then the second column. *)
Lemma main_eq (uploaded : option UploadedFile) (ss : Session) :
  main os uploaded ss =
  match uploaded with
  | None =>
      (Ok tt,
       mkSession (machine ss) (screen ss ++ page_head None ++ [ExitColumn 2]))
  | Some up =>
      let r := main_convert os up
                 (mkSession (machine ss) (screen ss ++ page_head (Some up))) in
      (fst r, mkSession (machine (snd r)) (screen (snd r) ++ [ExitColumn 2]))
  end.
Proof.
  unfold main, page_head, ui_bind, show, within, ui_ret.
  cbn [machine screen].
  destruct uploaded as [up|]; cbn [machine screen];
    rewrite <- ?app_assoc; cbn [app].
  - destruct (main_convert os up _) as [[[]|e] ss']; reflexivity.
  - reflexivity.
Qed.

Lemma downloads_app (a b : list Widget) :
  downloads (a ++ b) = downloads a ++ downloads b.
Proof.
  induction a as [|w a IH]; [reflexivity|].
  destruct w; simpl; rewrite IH; reflexivity.
Qed.

Lemma page_head_quiet (uploaded : option UploadedFile) :
  Forall (fun w => shows_result w = false) (page_head uploaded)
  /\ downloads (page_head uploaded) = [].
Proof.
  unfold page_head. destruct uploaded; split; repeat constructor.
Qed.

End ShellFacts.

Section ShellClaims.
Context `{Libs : Libraries}.
Variable os : Platform.

Lemma preview_of_nil_iff (ps : list Paragraph) (cap : Z) :
  1 <= cap ->
  preview_of ps cap = [] <-> Forall (fun p => blank (text_or_empty p) = true) ps.
Proof.
  intros Hcap. unfold preview_of.
  rewrite preview_loop_refines by exact Hcap. unfold preview_spec.
  rewrite <- kept_nil_iff. split.
  - intros Hj. apply join_nil_iff in Hj; [|apply Forall_take, kept_truthy].
    apply take_nil_inv in Hj as [Hz|Hk]; [lia|exact Hk].
  - intros ->. rewrite take_nil. reflexivity.
Qed.

(** X15. The script changes the machine through the conversion only:
    with no upload the files are as they were, and with an upload the
    machine is left exactly as [convert_pdf_bytes_to_docx] left it,
    whether the script then went on or stopped. *)
Theorem main_machine (uploaded : option UploadedFile) (ss : Session) :
  machine (snd (main os uploaded ss))
  = match uploaded with
    | None => machine ss
    | Some up => snd (convert_pdf_bytes_to_docx (getvalue up) (machine ss))
    end.
Proof.
  rewrite main_eq. destruct uploaded as [up|]; [|reflexivity].
  cbn zeta. cbn [snd machine]. rewrite main_convert_eq. cbn [machine].
  destruct (convert_pdf_bytes_to_docx (getvalue up) (machine ss)) as [[res|e] s'];
    [|reflexivity].
  destruct (docx_text_preview (fst res) 20); reflexivity.
Qed.

(** X16. When the conversion raises, the script raises the same
    exception: the spinner is closed and then the second column is left,
    these being the last two things drawn, and nothing that announces a
    result is drawn, no download button among it. *)
Theorem main_conversion_failure (up : UploadedFile) (ss : Session)
    (e : exc) (s' : State) :
  convert_pdf_bytes_to_docx (getvalue up) (machine ss) = (Raise e, s') ->
  exists added,
    main os (Some up) ss = (Raise e, mkSession s' (screen ss ++ added)) /\
    Forall (fun w => shows_result w = false) added /\
    ExitSpinner ∈ added /\
    downloads added = [] /\
    added = page_head (Some up)
            ++ [EnterSpinner SPINNER_TEXT; ExitSpinner; ExitColumn 2] /\
    ExitColumn 2 ∈ added.
Proof.
  intros Hc. rewrite main_eq. cbn zeta. rewrite main_convert_eq.
  cbn [machine screen]. rewrite Hc. cbn [fst snd machine screen].
  exists (page_head (Some up)
          ++ [EnterSpinner SPINNER_TEXT; ExitSpinner] ++ [ExitColumn 2]).
  split; [rewrite <- !app_assoc; reflexivity|].
  destruct (page_head_quiet (Some up)) as [Hq Hd].
  split; [|split; [|split; [|split]]].
  - apply Forall_app. split; [exact Hq|repeat constructor].
  - apply elem_of_app. right. apply elem_of_cons. right.
    apply elem_of_cons. left. reflexivity.
  - rewrite downloads_app, Hd. reflexivity.
  - reflexivity.
  - apply elem_of_app. right. apply elem_of_app. right.
    apply elem_of_cons. left. reflexivity.
Qed.

(** X17. When the conversion and the preview both succeed, the script
    ends normally and adds exactly one download button: it carries the
    very bytes the conversion returned, under the name derived from the
    uploaded name and with the word-processing MIME type; the status of
    the conversion is shown in the caption, and the preview, when not
    empty, as a code block. *)
Theorem main_success (up : UploadedFile) (ss : Session)
    (docx_bytes : bytes) (debug : str) (s' : State) (preview : str) :
  convert_pdf_bytes_to_docx (getvalue up) (machine ss)
  = (Ok (docx_bytes, debug), s') ->
  docx_text_preview docx_bytes 20 = Ok preview ->
  exists added,
    main os (Some up) ss = (Ok tt, mkSession s' (screen ss ++ added)) /\
    downloads added = [(docx_bytes, out_name_of os up, DOCX_MIME)] /\
    Caption (INFO_PREFIX ++ debug) ∈ added /\
    (if truthy preview then Code preview (lit "text") else Info NO_TEXT)
      ∈ added.
Proof.
  intros Hc Hp. rewrite main_eq. cbn zeta. rewrite main_convert_eq.
  cbn [machine screen]. rewrite Hc. cbn [fst snd]. rewrite Hp.
  cbn [fst snd machine screen].
  eexists. split; [rewrite <- !app_assoc; reflexivity|].
  destruct (page_head_quiet (Some up)) as [_ Hd].
  split; [|split].
  - rewrite !downloads_app, Hd. destruct (truthy preview); reflexivity.
  - apply elem_of_app. right. apply elem_of_app. left.
    unfold drawn_before_preview. rewrite !elem_of_cons. auto 6.
  - apply elem_of_app. right. apply elem_of_app. right.
    apply elem_of_app. left. apply elem_of_cons. left. reflexivity.
Qed.

(** X18. When the conversion succeeds but the converted bytes cannot be
    read back for the preview, the script raises the reader's exception
    after the success message has been drawn, and no download button is
    offered. *)
Theorem main_preview_failure (up : UploadedFile) (ss : Session)
    (docx_bytes : bytes) (debug : str) (s' : State) (e : exc) :
  convert_pdf_bytes_to_docx (getvalue up) (machine ss)
  = (Ok (docx_bytes, debug), s') ->
  docx_text_preview docx_bytes 20 = Raise e ->
  exists added,
    main os (Some up) ss = (Raise e, mkSession s' (screen ss ++ added)) /\
    Success SUCCESS_TEXT ∈ added /\
    downloads added = [].
Proof.
  intros Hc Hp. rewrite main_eq. cbn zeta. rewrite main_convert_eq.
  cbn [machine screen]. rewrite Hc. cbn [fst snd]. rewrite Hp.
  cbn [fst snd machine screen].
  eexists. split; [rewrite <- !app_assoc; reflexivity|].
  destruct (page_head_quiet (Some up)) as [_ Hd].
  split.
  - apply elem_of_app. right. apply elem_of_app. left.
    unfold drawn_before_preview. rewrite !elem_of_cons. auto 6.
  - rewrite !downloads_app, Hd. reflexivity.
Qed.

(** X19. After a successful conversion of a readable document the script
    says that no text was extracted exactly when every paragraph of the
    document is blank; otherwise it shows, as a code block, the preview
    of at most twenty paragraphs, which is not empty. *)
Theorem main_preview_widget (up : UploadedFile) (ss : Session)
    (docx_bytes : bytes) (debug : str) (s' : State) (doc : Doc) :
  convert_pdf_bytes_to_docx (getvalue up) (machine ss)
  = (Ok (docx_bytes, debug), s') ->
  Document_of_bytes docx_bytes = Ok doc ->
  exists added,
    screen (snd (main os (Some up) ss)) = screen ss ++ added /\
    (Info NO_TEXT ∈ added
     <-> Forall (fun p => blank (text_or_empty p) = true) (paragraphs doc)) /\
    (forall body language, Code body language ∈ added ->
       body = preview_of (paragraphs doc) 20 /\ body <> []
       /\ Z.of_nat (length (preview_loop (paragraphs doc) 20 [])) <= 20).
Proof.
  intros Hc Hd. rewrite main_eq. cbn zeta. rewrite main_convert_eq.
  cbn [machine screen]. rewrite Hc. cbn [fst snd].
  unfold docx_text_preview. rewrite Hd. cbn [fst snd machine screen].
  eexists. split; [rewrite <- !app_assoc; reflexivity|].
  pose proof (preview_of_nil_iff (paragraphs doc) 20 ltac:(lia)) as Hnil.
  unfold page_head, drawn_before_preview.
  destruct (truthy (preview_of (paragraphs doc) 20)) eqn:T.
  - split.
    + rewrite <- Hnil. split.
      * rewrite !elem_of_app, !elem_of_cons, !elem_of_nil.
        intros H. repeat (destruct H as [H|H]); try discriminate H; contradiction.
      * intros Hn. rewrite Hn in T. discriminate.
    + intros body language.
      rewrite !elem_of_app, !elem_of_cons, !elem_of_nil.
      intros H. repeat (destruct H as [H|H]); try discriminate H;
        try contradiction.
      injection H as -> ->. split; [reflexivity|]. split.
      * intros Hn. rewrite Hn in T. discriminate.
      * rewrite preview_loop_refines by lia. unfold preview_spec.
        rewrite length_take. lia.
  - split.
    + split; [intros _; apply Hnil, truthy_nil, T|].
      intros _. rewrite !elem_of_app, !elem_of_cons. auto 20.
    + intros body language.
      rewrite !elem_of_app, !elem_of_cons, !elem_of_nil.
      intros H. repeat (destruct H as [H|H]); try discriminate H; contradiction.
Qed.

End ShellClaims.

Section DownloadName.
Variable os : Platform.

(** X20. An uploaded name made of a stem, a dot and an extension gives
    the download name stem.docx, on either platform, when the name holds
    no path separator, the extension no dot, and the stem is not made of
    dots only. *)
Theorem out_name_of_replaces_extension (up : UploadedFile) (stem ext : str) :
  name up = stem ++ DOT :: ext ->
  47%N ∉ name up ->
  92%N ∉ name up ->
  DOT ∉ ext ->
  (exists c, c ∈ stem /\ c <> DOT) ->
  out_name_of os up = stem ++ lit ".docx".
Proof.
  intros Hn Hs Hb Hext Hstem. unfold out_name_of, splitext.
  rewrite Hn in *.
  rewrite splitext_stem_ext; [reflexivity| | |exact Hext|exact Hstem].
  - destruct os; assumption.
  - intros a Ha. destruct os; [discriminate|]. injection Ha as <-. exact Hs.
Qed.

(** X21. An uploaded name without a dot, or whose only dots are leading
    ones, keeps its whole name in the download name: ".docx" is appended
    to it. *)
Theorem out_name_of_appends (up : UploadedFile) (dots rest : str) :
  name up = dots ++ rest ->
  Forall (fun c => c = DOT) dots ->
  DOT ∉ rest ->
  out_name_of os up = name up ++ lit ".docx".
Proof.
  intros Hn Hdots Hrest. unfold out_name_of, splitext. rewrite Hn.
  rewrite splitext_no_extension by assumption. reflexivity.
Qed.

End DownloadName.

Lemma main_conversion_failure_witness :
  fst (main (Libs := scripted (convert_raises_holding RuntimeError)) Posix
            (Some upload_report) fresh_session)
  = Raise RuntimeError.
Proof.
  destruct (main_conversion_failure
              (Libs := scripted (convert_raises_holding RuntimeError)) Posix
              upload_report fresh_session RuntimeError
              (snd (convert_pdf_bytes_to_docx
                      (Libs := scripted (convert_raises_holding RuntimeError))
                      [Byte.x25] boot)))
    as (added & -> & _).
  - vm_compute. reflexivity.
  - reflexivity.
Defined.

Lemma main_success_witness :
  exists added,
    main (Libs := scripted quiet) Posix (Some upload_report) fresh_session
    = (Ok tt,
       mkSession (snd (convert_pdf_bytes_to_docx (Libs := scripted quiet)
                                                 [Byte.x25] boot))
                 (screen fresh_session ++ added)) /\
    downloads added
    = [(resaved quiet, out_name_of Posix upload_report, DOCX_MIME)].
Proof.
  destruct (main_success (Libs := scripted quiet) Posix upload_report
              fresh_session (resaved quiet) STATUS
              (snd (convert_pdf_bytes_to_docx (Libs := scripted quiet)
                                              [Byte.x25] boot))
              (lit "Hello"))
    as (added & Hm & Hd & _).
  - vm_compute. reflexivity.
  - reflexivity.
  - exists added. split; assumption.
Defined.

Lemma main_preview_failure_witness :
  fst (main (Libs := unreadable_output) Posix (Some upload_report) fresh_session)
  = Raise ValueError.
Proof.
  destruct (main_preview_failure (Libs := unreadable_output) Posix
              upload_report fresh_session (resaved quiet) STATUS
              (snd (convert_pdf_bytes_to_docx (Libs := unreadable_output)
                                              [Byte.x25] boot))
              ValueError)
    as (added & -> & _).
  - vm_compute. reflexivity.
  - reflexivity.
  - reflexivity.
Defined.

Lemma main_preview_widget_witness :
  exists added,
    screen (snd (main (Libs := scripted (reading [] [para " "])) Posix
                      (Some upload_report) fresh_session))
    = screen fresh_session ++ added /\
    Info NO_TEXT ∈ added.
Proof.
  destruct (main_preview_widget (Libs := scripted (reading [] [para " "])) Posix
              upload_report fresh_session (resaved quiet) STATUS
              (snd (convert_pdf_bytes_to_docx
                      (Libs := scripted (reading [] [para " "]))
                      [Byte.x25] boot))
              [para " "])
    as (added & Hs & Hi & _).
  - vm_compute. reflexivity.
  - reflexivity.
  - exists added. split; [exact Hs|]. apply Hi. repeat constructor.
Defined.

Lemma out_name_of_replaces_extension_witness :
  out_name_of Nt upload_report = lit "report" ++ lit ".docx".
Proof.
  apply (out_name_of_replaces_extension Nt upload_report (lit "report") (lit "pdf")).
  - reflexivity.
  - refine (bool_decide_unpack _ _). vm_compute. exact I.
  - refine (bool_decide_unpack _ _). vm_compute. exact I.
  - refine (bool_decide_unpack _ _). vm_compute. exact I.
  - exists 114%N. split; [|discriminate].
    refine (bool_decide_unpack _ _). vm_compute. exact I.
Defined.

Lemma out_name_of_appends_witness :
  out_name_of Posix (mkUpload ([DOT] ++ lit "pdf") [])
  = ([DOT] ++ lit "pdf") ++ lit ".docx".
Proof.
  apply (out_name_of_appends Posix (mkUpload ([DOT] ++ lit "pdf") [])
           [DOT] (lit "pdf")).
  - reflexivity.
  - repeat constructor.
  - refine (bool_decide_unpack _ _). vm_compute. exact I.
Defined.
